(** * MAESTRO multiome barcode map: a shallow embedding of
      [MAESTRO/Multiome_BarcodeMap.py]

    The development follows the body of [barcodemap] statement by statement.
    Python values that the function touches are modelled as data:
    - [str] as a list of Unicode code points, [bytes] as a list of bytes,
      with the strict UTF-8 codec between them;
    - a [dict] as a [gmap], filled pair by pair so that a later pair
      overrides an earlier one with the same key;
    - a [set] as a [gset]; the order in which [list(set)] enumerates it is
      not fixed by the language, and is a parameter ([set_iter]);
    - a two-dimensional array as its list of rows plus its column count;
    - an exception as a constructor of [exn]; a computation that may raise
      returns [res];
    - the calls that leave the process ([os.makedirs], the HDF5 writers) as
      events appended to a trace.

    Names that the function reads but that this module does not bind
    ([separator], [numpy], [atac], [rna], [feature], [passed_gene]) can only
    come from the star imports of the sibling modules; they are looked up in
    a record of globals, and an unbound one raises [NameError].  The readers
    of the sibling modules ([read_count], [read_10X_h5], [read_10X_mtx],
    [universal_open]) are parameters.  The last statement of the function is
    read as the call it spells (the source has a stray colon after it). *)

From Stdlib Require Import ZArith NArith Strings.Byte.
From stdpp Require Import gmap strings list sets.

Local Open Scope N_scope.

(** ** Python strings and bytes *)

Inductive pyval :=
  | PStr (s : list N)
  | PBytes (b : list byte).

#[global] Instance byte_eq_dec : EqDecision byte := Byte.byte_eq_dec.

#[global] Instance byte_countable : Countable byte :=
  inj_countable Byte.to_N Byte.of_N Byte.of_to_N.

#[global] Instance pyval_eq_dec : EqDecision pyval.
Proof. solve_decision. Defined.

#[global] Instance pyval_countable : Countable pyval :=
  inj_countable'
    (λ v, match v with PStr s => inl s | PBytes b => inr b end)
    (λ x, match x with inl s => PStr s | inr b => PBytes b end)
    (λ v, match v with PStr _ => eq_refl | PBytes _ => eq_refl end).

(** A [str] literal made of ASCII characters. *)
Definition str (s : string) : list N :=
  Byte.to_N <$> String.list_byte_of_string s.

(** ** Exceptions *)

Inductive exn :=
  | NameError (name : string)
  | KeyError (key : pyval)
  | NotInList (x : pyval)          (* ValueError: x is not in list *)
  | ShapeMismatch                  (* ValueError raised by np.vstack *)
  | IndexError
  | AttributeError
  | UnicodeDecodeError
  | UnicodeEncodeError
  | TypeError
  | OtherError (msg : string).     (* raised inside an external reader *)

Inductive res (A : Type) :=
  | Ok (a : A)
  | Raise (e : exn).
Arguments Ok {A} a.
Arguments Raise {A} e.

Definition res_bind {A B} (m : res A) (k : A → res B) : res B :=
  match m with
  | Ok a => k a
  | Raise e => Raise e
  end.

Declare Scope res_scope.
Delimit Scope res_scope with res.
Notation "'let?' x ':=' m 'in' k" := (res_bind m (λ x, k))
  (at level 10, x pattern, m at level 100, k at level 200) : res_scope.
Local Open Scope res_scope.

(** [for x in l: f x], collecting the results; the first exception wins. *)
Fixpoint res_map {A B} (f : A → res B) (l : list A) : res (list B) :=
  match l with
  | [] => Ok []
  | x :: l' =>
      let? y := f x in
      let? ys := res_map f l' in
      Ok (y :: ys)
  end.

(** ** UTF-8, as [bytes.decode()] and [str.encode()] use it *)

Definition is_surrogate (c : N) : bool :=
  (0xD800 <=? c) && (c <=? 0xDFFF).

Definition byte_n (n : N) : list byte :=
  match Byte.of_N n with
  | Some b => [b]
  | None => []
  end.

Definition utf8_encode_char (c : N) : option (list byte) :=
  if c <? 0x80 then Some (byte_n c)
  else if c <? 0x800 then
    Some (byte_n (0xC0 + c / 64) ++ byte_n (0x80 + c mod 64))
  else if c <? 0x10000 then
    if is_surrogate c then None
    else Some (byte_n (0xE0 + c / 4096) ++ byte_n (0x80 + (c / 64) mod 64)
               ++ byte_n (0x80 + c mod 64))
  else if c <? 0x110000 then
    Some (byte_n (0xF0 + c / 262144) ++ byte_n (0x80 + (c / 4096) mod 64)
          ++ byte_n (0x80 + (c / 64) mod 64) ++ byte_n (0x80 + c mod 64))
  else None.

Fixpoint utf8_encode (s : list N) : option (list byte) :=
  match s with
  | [] => Some []
  | c :: s' =>
      match utf8_encode_char c, utf8_encode s' with
      | Some b, Some bs => Some (b ++ bs)
      | _, _ => None
      end
  end.

Definition in_range (lo hi n : N) : bool := (lo <=? n) && (n <=? hi).

Definition is_cont (n : N) : bool := in_range 0x80 0xBF n.

Fixpoint utf8_decode (b : list byte) : option (list N) :=
  match b with
  | [] => Some []
  | b1 :: r1 =>
      let n1 := Byte.to_N b1 in
      if n1 <? 0x80 then cons n1 <$> utf8_decode r1
      else match r1 with
      | [] => None
      | b2 :: r2 =>
          let n2 := Byte.to_N b2 in
          if in_range 0xC2 0xDF n1 then
            if is_cont n2
            then cons ((n1 - 0xC0) * 64 + (n2 - 0x80)) <$> utf8_decode r2
            else None
          else match r2 with
          | [] => None
          | b3 :: r3 =>
              let n3 := Byte.to_N b3 in
              if in_range 0xE0 0xEF n1 then
                if in_range (if n1 =? 0xE0 then 0xA0 else 0x80)
                            (if n1 =? 0xED then 0x9F else 0xBF) n2
                   && is_cont n3
                then cons ((n1 - 0xE0) * 4096 + (n2 - 0x80) * 64 + (n3 - 0x80))
                       <$> utf8_decode r3
                else None
              else match r3 with
              | [] => None
              | b4 :: r4 =>
                  let n4 := Byte.to_N b4 in
                  if in_range 0xF0 0xF4 n1
                     && in_range (if n1 =? 0xF0 then 0x90 else 0x80)
                                 (if n1 =? 0xF4 then 0x8F else 0xBF) n2
                     && is_cont n3 && is_cont n4
                  then cons ((n1 - 0xF0) * 262144 + (n2 - 0x80) * 4096
                             + (n3 - 0x80) * 64 + (n4 - 0x80))
                         <$> utf8_decode r4
                  else None
              end
          end
      end
  end.

(** [x.decode()]: only [bytes] has the method. *)
Definition py_decode (v : pyval) : res pyval :=
  match v with
  | PBytes b =>
      match utf8_decode b with
      | Some s => Ok (PStr s)
      | None => Raise UnicodeDecodeError
      end
  | PStr _ => Raise AttributeError
  end.

(** [x.encode()]: only [str] has the method. *)
Definition py_encode (v : pyval) : res pyval :=
  match v with
  | PStr s =>
      match utf8_encode s with
      | Some b => Ok (PBytes b)
      | None => Raise UnicodeEncodeError
      end
  | PBytes _ => Raise AttributeError
  end.

(** ** [re.sub("\W", "_", s)] and [str.strip()] *)

Definition is_ascii_word (c : N) : bool :=
  in_range 0x30 0x39 c || in_range 0x41 0x5A c || in_range 0x61 0x7A c
  || (c =? 0x5F).

(** Code points for which [str.isspace()] holds. *)
Definition is_space (c : N) : bool :=
  in_range 0x09 0x0D c || in_range 0x1C 0x20 c || (c =? 0x85) || (c =? 0xA0)
  || (c =? 0x1680) || in_range 0x2000 0x200A c || (c =? 0x2028)
  || (c =? 0x2029) || (c =? 0x202F) || (c =? 0x205F) || (c =? 0x3000).

Fixpoint lstrip (s : list N) : list N :=
  match s with
  | c :: s' => if is_space c then lstrip s' else s
  | [] => []
  end.

Definition strip (s : list N) : list N :=
  reverse (lstrip (reverse (lstrip s))).

(** ** Lists, dicts and sets *)

(** [l.index(x)] *)
Definition list_index (l : list pyval) (x : pyval) : res nat :=
  match list_find (λ y, y = x) l with
  | Some (i, _) => Ok i
  | None => Raise (NotInList x)
  end.

(** [dict(pairs)]: the pairs are inserted in order. *)
Definition py_dict (pairs : list (pyval * pyval)) : gmap pyval pyval :=
  foldl (λ d kv, <[kv.1 := kv.2]> d) ∅ pairs.

(** [d[k]] *)
Definition dict_get (d : gmap pyval pyval) (k : pyval) : res pyval :=
  match d !! k with
  | Some v => Ok v
  | None => Raise (KeyError k)
  end.

(** [set(l)] *)
Definition py_set (l : list pyval) : gset pyval := list_to_set l.

(** A name of the enclosing scopes, or a local that no branch assigned. *)
Definition lookup_name {A} (name : string) (v : option A) : res A :=
  match v with
  | Some a => Ok a
  | None => Raise (NameError name)
  end.

(** [np.array(l)[idx]] for a list [idx] of integers. *)
Definition np_take {A} (l : list A) (idx : list Z) : res (list A) :=
  res_map (λ i : Z,
    let j := if (i <? 0)%Z then (i + Z.of_nat (length l))%Z else i in
    if (j <? 0)%Z then Raise IndexError
    else match l !! Z.to_nat j with
         | Some x => Ok x
         | None => Raise IndexError
         end) idx.

(** ** The command-line options handed to [barcodemap] *)

Record args := {
  fileformat : list N;
  directory : list N;
  outprefix : list N;
  rna_to_atac : bool;
  peakcount : list N;
  genecount : list N;
  atac_feature : list N;
  atac_barcode : list N;
  rna_feature : list N;
  gene_column : Z;
  rna_barcode : list N;
  atac_barcode_lib : list N;
  rna_barcode_lib : list N;
  species : list N
}.

(** Names read by [barcodemap] that the module itself never binds. *)
Record globals := {
  g_separator : option pyval;
  g_numpy : bool;
  g_atac : option (list pyval);
  g_rna : option (list pyval);
  g_feature : option (list pyval);
  g_passed_gene : option (list (list Z))
}.

(** ** Two-dimensional arrays *)

Section Arrays.

(** Matrix entries; the function never computes with them. *)
Context {num : Type}.

Record ndarray := {
  ncols : nat;
  rows : list (list num)
}.

Definition nrows (m : ndarray) : nat := length (rows m).

Definition astype (f : num → num) (m : ndarray) : ndarray :=
  {| ncols := ncols m; rows := map (map f) (rows m) |}.

(** [m[np.array(idx), :]]: the first axis is indexed.  [np.array([])] has a
    floating-point dtype and is refused as an index. *)
Definition index_rows (m : ndarray) (idx : list nat) : res ndarray :=
  match idx with
  | [] => Raise IndexError
  | _ =>
      let? rs := res_map (λ i, match rows m !! i with
                               | Some r => Ok r
                               | None => Raise IndexError
                               end) idx in
      Ok {| ncols := ncols m; rows := rs |}
  end.

(** [np.vstack((a, b))] *)
Definition np_vstack (a b : ndarray) : res ndarray :=
  if decide (ncols a = ncols b)
  then Ok {| ncols := ncols a; rows := rows a ++ rows b |}
  else Raise ShapeMismatch.

(** What the readers of the sibling modules hand back. *)
Record matrix_dict := {
  matrix : ndarray;
  features : list pyval;
  barcodes : list pyval
}.

Record h5_count := {
  h5_matrix : ndarray;
  names : list pyval;
  h5_barcodes : list pyval
}.

(** The locals bound by a branch on [fileformat]. *)
Record loaded := {
  peakmatrix : ndarray;
  atac_features : list pyval;
  atac_barcodes : list pyval;
  genematrix : ndarray;
  rna_features : list pyval;
  rna_barcodes : list pyval
}.

End Arrays.

Arguments ndarray : clear implicits.
Arguments matrix_dict : clear implicits.
Arguments h5_count : clear implicits.
Arguments loaded : clear implicits.

(** ** What surrounds the function *)

Record env (num : Type) := {
  (** the casts behind [dtype=np.int32] and [dtype=numpy.float32] *)
  astype_int32 : num → num;
  astype_float32 : num → num;
  (** [str.isalnum()] on the code points above ASCII *)
  unicode_isalnum : N → bool;
  (** the order in which [list(s)] enumerates a set *)
  set_iter : gset pyval → list pyval;
  (** the readers of the sibling modules *)
  read_count : list N → pyval → res (matrix_dict num);
  read_10X_h5 : list N → res (h5_count num);
  read_10X_mtx :
    list N → list N → list N → string → option Z → res (matrix_dict num);
  (** the lines of a text file, each with its line terminator *)
  universal_open : list N → string → res (list (list N));
  (** the names the module does not bind *)
  G : globals
}.
Arguments astype_int32 {num} e.
Arguments astype_float32 {num} e.
Arguments unicode_isalnum {num} e.
Arguments set_iter {num} e.
Arguments read_count {num} e.
Arguments read_10X_h5 {num} e.
Arguments read_10X_mtx {num} e.
Arguments universal_open {num} e.
Arguments G {num} e.

Section Pipeline.

Context {num : Type} (E : env num).

(** ** Loading the two count matrices (the three branches on [fileformat]) *)

Definition is_word (c : N) : bool :=
  if c <? 0x80 then is_ascii_word c else unicode_isalnum E c.

(** [re.sub("\W", "_", s)] with a [str] pattern. *)
Definition re_sub_W (v : pyval) : res pyval :=
  match v with
  | PStr s => Ok (PStr ((λ c, if is_word c then c else 0x5F) <$> s))
  | PBytes _ => Raise TypeError
  end.

Definition load_plain (a : args) : res (loaded num) :=
  let? separator := lookup_name "separator" (g_separator (G E)) in
  let? matrix_dict := read_count E (peakcount a) separator in
  let peakmatrix := astype (astype_int32 E) (matrix matrix_dict) in
  let? atac_features := res_map py_encode (features matrix_dict) in
  let atac_barcodes := barcodes matrix_dict in
  let? matrix_dict := read_count E (genecount a) separator in
  let? _ := lookup_name "numpy" (if g_numpy (G E) then Some () else None) in
  let genematrix := astype (astype_float32 E) (matrix matrix_dict) in
  Ok {| peakmatrix := peakmatrix; atac_features := atac_features;
        atac_barcodes := atac_barcodes; genematrix := genematrix;
        rna_features := features matrix_dict;
        rna_barcodes := barcodes matrix_dict |}.

Definition is_bytes (v : pyval) : bool :=
  match v with PBytes _ => true | PStr _ => false end.

(** [if type(l[0]) == bytes: l = [i.decode() for i in l]] *)
Definition decode_if_bytes (l : list pyval) : res (list pyval) :=
  match l with
  | [] => Raise IndexError
  | first :: _ => if is_bytes first then res_map py_decode l else Ok l
  end.

(** The two comprehensions that rewrite the peak names of an h5 file. *)
Definition normalize_peak_names (names : list pyval) : res (list pyval) :=
  let? atac_features :=
    res_map (λ feature, let? s := py_decode feature in re_sub_W s) names in
  res_map py_encode atac_features.

Definition load_h5 (a : args) : res (loaded num) :=
  let? scatac_count := read_10X_h5 E (peakcount a) in
  let? atac_features := normalize_peak_names (names scatac_count) in
  let? scrna_count := read_10X_h5 E (genecount a) in
  let? rna_features := decode_if_bytes (names scrna_count) in
  let? rna_barcodes := decode_if_bytes (h5_barcodes scrna_count) in
  Ok {| peakmatrix := h5_matrix scatac_count; atac_features := atac_features;
        atac_barcodes := h5_barcodes scatac_count;
        genematrix := h5_matrix scrna_count;
        rna_features := rna_features; rna_barcodes := rna_barcodes |}.

Definition load_mtx (a : args) : res (loaded num) :=
  let? matrix_dict :=
    read_10X_mtx E (peakcount a) (atac_feature a) (atac_barcode a) "Peak" None in
  let peakmatrix := matrix matrix_dict in
  let? atac_features := res_map py_encode (features matrix_dict) in
  let atac_barcodes := barcodes matrix_dict in
  let? matrix_dict :=
    read_10X_mtx E (genecount a) (rna_feature a) (rna_barcode a) "Gene"
                 (Some (gene_column a)) in
  Ok {| peakmatrix := peakmatrix; atac_features := atac_features;
        atac_barcodes := atac_barcodes; genematrix := matrix matrix_dict;
        rna_features := features matrix_dict;
        rna_barcodes := barcodes matrix_dict |}.

(** No branch is taken for any other [fileformat]: the locals stay unbound. *)
Definition load (a : args) : res (option (loaded num)) :=
  if decide (fileformat a = str "plain") then
    let? l := load_plain a in Ok (Some l)
  else if decide (fileformat a = str "h5") then
    let? l := load_h5 a in Ok (Some l)
  else if decide (fileformat a = str "mtx") then
    let? l := load_mtx a in Ok (Some l)
  else Ok None.

(** ** The barcode library files *)

Definition read_barcode_lib (path : list N) : res (list pyval) :=
  let? fhd := universal_open E path "rt" in
  Ok ((λ line, PStr (strip line)) <$> fhd).

(** ** Translation, overlap and index lists (the branch on [rna_to_atac]) *)

Record indexed := {
  barcode_overlapped : list pyval;
  rna_barcode_idx : list nat;
  atac_barcode_idx : list nat
}.

Definition overlap (xs ys : list pyval) : list pyval :=
  set_iter E (py_set xs ∩ py_set ys).

(** The first two statements of either branch: translate the observed
    barcodes of one matrix through the dict, then intersect with the
    observed barcodes of the other. *)
Definition translate_and_overlap (d : gmap pyval pyval)
    (observed other : list pyval) : res (list pyval * list pyval) :=
  let? translated := res_map (dict_get d) observed in
  Ok (translated, overlap translated other).

Definition index_rna_to_atac (rna_atac_dict : gmap pyval pyval)
    (rna_barcodes atac_barcodes : list pyval) : res indexed :=
  let? (rna_atac_barcodes, barcode_overlapped) :=
    translate_and_overlap rna_atac_dict rna_barcodes atac_barcodes in
  let? rna_barcode_idx :=
    res_map (list_index barcode_overlapped) barcode_overlapped in
  let? atac_barcode_idx :=
    res_map (list_index barcode_overlapped) atac_barcodes in
  Ok {| barcode_overlapped := barcode_overlapped;
        rna_barcode_idx := rna_barcode_idx;
        atac_barcode_idx := atac_barcode_idx |}.

Definition index_atac_to_rna (atac_rna_dict : gmap pyval pyval)
    (atac_barcodes rna_barcodes : list pyval) : res indexed :=
  let? (atac_rna_barcodes, barcode_overlapped) :=
    translate_and_overlap atac_rna_dict atac_barcodes rna_barcodes in
  let? atac_barcode_idx :=
    res_map (list_index barcode_overlapped) atac_rna_barcodes in
  let? rna_barcode_idx :=
    res_map (list_index barcode_overlapped) rna_barcodes in
  Ok {| barcode_overlapped := barcode_overlapped;
        rna_barcode_idx := rna_barcode_idx;
        atac_barcode_idx := atac_barcode_idx |}.

Definition index_barcodes (flag : bool) (atac rna : list pyval)
    (ld : option (loaded num)) : res indexed :=
  let atac_rna_dict := py_dict (zip atac rna) in
  let rna_atac_dict := py_dict (zip rna atac) in
  if flag then
    let? rna_barcodes := lookup_name "rna_barcodes" (rna_barcodes <$> ld) in
    let? atac_barcodes := lookup_name "atac_barcodes" (atac_barcodes <$> ld) in
    index_rna_to_atac rna_atac_dict rna_barcodes atac_barcodes
  else
    let? atac_barcodes := lookup_name "atac_barcodes" (atac_barcodes <$> ld) in
    let? rna_barcodes := lookup_name "rna_barcodes" (rna_barcodes <$> ld) in
    index_atac_to_rna atac_rna_dict atac_barcodes rna_barcodes.

(** ** Filtering, stacking and writing *)

Record locals := {
  ix : indexed;
  genematrix_filtered : ndarray num;
  peakmatrix_filtered : ndarray num;
  passed_genes : list pyval;
  all_feature_matrix : ndarray num;
  all_features : list pyval;
  out_rna_features : list pyval;
  out_atac_features : list pyval
}.

Definition filter_and_stack (ld : loaded num) (ix : indexed) : res locals :=
  let? genematrix_filtered := index_rows (genematrix ld) (rna_barcode_idx ix) in
  let? peakmatrix_filtered := index_rows (peakmatrix ld) (atac_barcode_idx ix) in
  let? feature := lookup_name "feature" (g_feature (G E)) in
  let? passed_gene := lookup_name "passed_gene" (g_passed_gene (G E)) in
  let? row0 := match passed_gene with
               | [] => Raise IndexError
               | r :: _ => Ok r
               end in
  let? passed_genes := np_take feature row0 in
  let? all_feature_matrix := np_vstack genematrix_filtered peakmatrix_filtered in
  let all_features := rna_features ld ++ atac_features ld in
  Ok {| ix := ix; genematrix_filtered := genematrix_filtered;
        peakmatrix_filtered := peakmatrix_filtered;
        passed_genes := passed_genes;
        all_feature_matrix := all_feature_matrix;
        all_features := all_features;
        out_rna_features := rna_features ld;
        out_atac_features := atac_features ld |}.

(** Everything between [os.makedirs] and the first writer call. *)
Definition barcodemap_body (a : args) : res locals :=
  let? ld := load a in
  let? atac_barcode_lib_list := read_barcode_lib (atac_barcode_lib a) in
  let? rna_barcode_lib_list := read_barcode_lib (rna_barcode_lib a) in
  let? atac := lookup_name "atac" (g_atac (G E)) in
  let? rna := lookup_name "rna" (g_rna (G E)) in
  let? ix := index_barcodes (rna_to_atac a) atac rna ld in
  match ld with
  | Some ld => filter_and_stack ld ix
  | None => Raise (NameError "genematrix")
  end.

(** Calls that act outside the process. *)
Inductive event :=
  | Makedirs (path : list N)
  | Write_10X_h5 (filename : list N) (matrix : ndarray num)
      (features barcodes : list pyval) (genome : list N) (datatype : string)
  | Write_10X_h5_multiome (filename : list N) (rna_matrix : ndarray num)
      (rna_features barcodes : list pyval) (atac_matrix : ndarray num)
      (atac_features : list pyval) (genome : list N) (datatype : string).

Definition write_outputs (a : args) (l : locals) : list event :=
  [ Write_10X_h5 (outprefix a ++ str "_multiome_gene_count.h5")
      (genematrix_filtered l) (out_rna_features l)
      (barcode_overlapped (ix l)) (species a) "Gene";
    Write_10X_h5 (outprefix a ++ str "_multiome_peak_count.h5")
      (peakmatrix_filtered l) (out_atac_features l)
      (barcode_overlapped (ix l)) (species a) "Peak";
    Write_10X_h5_multiome (outprefix a ++ str "_multiome_feature_count.h5")
      (genematrix_filtered l) (out_rna_features l)
      (barcode_overlapped (ix l)) (peakmatrix_filtered l)
      (out_atac_features l) (species a) "Multiome" ].

(** The whole function: the trace of outside calls and how it ended.  An
    [OSError] of [os.makedirs] is swallowed, so the call is only recorded. *)
Definition barcodemap (a : args) : list event * res unit :=
  match barcodemap_body a with
  | Ok l => (Makedirs (directory a) :: write_outputs a l, Ok ())
  | Raise e => ([Makedirs (directory a)], Raise e)
  end.

(** The run gets as far as the branch on [rna_to_atac]: a branch on
    [fileformat] bound the locals [ld], both library files could be read,
    and the names [atac] and [rna] are bound to these lists. *)
Definition reaches_indexing (a : args) (ld : loaded num)
    (atac rna : list pyval) : Prop :=
  load a = Ok (Some ld)
  ∧ (∃ l, read_barcode_lib (atac_barcode_lib a) = Ok l)
  ∧ (∃ l, read_barcode_lib (rna_barcode_lib a) = Ok l)
  ∧ g_atac (G E) = Some atac
  ∧ g_rna (G E) = Some rna.

End Pipeline.

Arguments locals : clear implicits.
Arguments event : clear implicits.

(** ** Concrete surroundings, to run the function on small inputs *)

Definition bc (s : string) : pyval := PStr (str s).

Definition lines_of (l : list pyval) : list (list N) :=
  (λ v, match v with PStr s => s ++ [0x0A] | PBytes _ => [0x0A] end) <$> l.

Definition demo_globals (atac rna : option (list pyval)) : globals :=
  {| g_separator := None; g_numpy := false;
     g_atac := atac; g_rna := rna;
     g_feature := Some [bc "GeneA"; bc "GeneB"; bc "GeneC"];
     g_passed_gene := Some [[0%Z; 2%Z]] |}.

(** Matrix-market readers that return [peak] and [gene]; library files that
    hold [atac_lib] and [rna_lib]; the free names bound as [globals] says. *)
Definition demo_env (peak gene : matrix_dict Z) (atac_lib rna_lib : list pyval)
    (globals : globals) : env Z :=
  {| astype_int32 := id; astype_float32 := id;
     unicode_isalnum := λ _, false;
     set_iter := elements;
     read_count := λ _ _, Raise (OtherError "no such file");
     read_10X_h5 := λ _, Raise (OtherError "no such file");
     read_10X_mtx := λ _ _ _ datatype _,
       if decide (datatype = "Peak") then Ok peak else Ok gene;
     universal_open := λ path _,
       if decide (path = str "atac_lib.txt") then Ok (lines_of atac_lib)
       else Ok (lines_of rna_lib);
     G := globals |}.

Definition demo_args (flag : bool) : args :=
  {| fileformat := str "mtx"; directory := str "out";
     outprefix := str "sample"; rna_to_atac := flag;
     peakcount := str "peak/matrix.mtx"; genecount := str "gene/matrix.mtx";
     atac_feature := str "peaks.bed"; atac_barcode := str "peak/barcodes.tsv";
     rna_feature := str "features.tsv"; gene_column := 2%Z;
     rna_barcode := str "barcodes.tsv";
     atac_barcode_lib := str "atac_lib.txt";
     rna_barcode_lib := str "rna_lib.txt"; species := str "GRCh38" |}.

Definition demo_peak_features : list pyval :=
  [bc "chr1_10_20"; bc "chr1_30_40"; bc "chr2_5_9"].

Definition demo_gene_features : list pyval :=
  [bc "GeneA"; bc "GeneB"; bc "GeneC"].

(** Three peaks over the cells [A1, A2, A3]. *)
Definition demo_peak3 : matrix_dict Z :=
  {| matrix := {| ncols := 3; rows := [[1; 0; 4]; [0; 2; 0]; [3; 3; 1]]%Z |};
     features := demo_peak_features;
     barcodes := [bc "A1"; bc "A2"; bc "A3"] |}.

(** Three peaks over the cells [A1, A2]. *)
Definition demo_peak2 : matrix_dict Z :=
  {| matrix := {| ncols := 2; rows := [[1; 0]; [0; 2]; [3; 3]]%Z |};
     features := demo_peak_features;
     barcodes := [bc "A1"; bc "A2"] |}.

(** Three genes over the cells [R1, R2]. *)
Definition demo_gene2 : matrix_dict Z :=
  {| matrix := {| ncols := 2; rows := [[5; 6]; [7; 8]; [9; 0]]%Z |};
     features := demo_gene_features;
     barcodes := [bc "R1"; bc "R2"] |}.

Definition bs (s : string) : pyval := PBytes (String.list_byte_of_string s).

(** An HDF5 reader: one peak over the cell [A1], one gene over [R1]. *)
Definition demo_h5 (path : list N) : res (h5_count Z) :=
  if decide (path = str "peak.h5") then
    Ok {| h5_matrix := {| ncols := 1; rows := [[4]]%Z |};
          names := [bs "chr10:100020591-100020841"];
          h5_barcodes := [bs "A1"] |}
  else
    Ok {| h5_matrix := {| ncols := 1; rows := [[7]]%Z |};
          names := [bs "GeneA"];
          h5_barcodes := [bs "R1"] |}.

Definition demo_env_h5 : env Z :=
  {| astype_int32 := id; astype_float32 := id;
     unicode_isalnum := λ _, false;
     set_iter := elements;
     read_count := λ _ _, Raise (OtherError "no such file");
     read_10X_h5 := demo_h5;
     read_10X_mtx := λ _ _ _ _ _, Raise (OtherError "no such file");
     universal_open := λ _ _, Ok [];
     G := demo_globals None None |}.

Definition demo_args_h5 : args :=
  {| fileformat := str "h5"; directory := str "out";
     outprefix := str "sample"; rna_to_atac := false;
     peakcount := str "peak.h5"; genecount := str "gene.h5";
     atac_feature := []; atac_barcode := [];
     rna_feature := str "features.tsv"; gene_column := 2%Z;
     rna_barcode := str "barcodes.tsv";
     atac_barcode_lib := str "atac_lib.txt";
     rna_barcode_lib := str "rna_lib.txt"; species := str "GRCh38" |}.

Definition demo_bound (atac rna : list pyval) : globals :=
  demo_globals (Some atac) (Some rna).

(** The library pairs (A1,R1), (A2,R2), (A3,R9) around the cells
    [A1, A2, A3] and [R1, R2]. *)
Definition demo_env_r9 : env Z :=
  demo_env demo_peak3 demo_gene2
    [bc "A1"; bc "A2"; bc "A3"] [bc "R1"; bc "R2"; bc "R9"]
    (demo_bound [bc "A1"; bc "A2"; bc "A3"] [bc "R1"; bc "R2"; bc "R9"]).

(** The library pairs (A1,R1), (A2,R2) around the cells [A1, A2] and
    [R1, R2]. *)
Definition demo_env_ok : env Z :=
  demo_env demo_peak2 demo_gene2
    [bc "A1"; bc "A2"] [bc "R1"; bc "R2"]
    (demo_bound [bc "A1"; bc "A2"] [bc "R1"; bc "R2"]).

(** As [demo_env_ok], with a third line in the ATAC library only. *)
Definition demo_env_mismatch : env Z :=
  demo_env demo_peak2 demo_gene2
    [bc "A1"; bc "A2"; bc "A3"] [bc "R1"; bc "R2"]
    (demo_bound [bc "A1"; bc "A2"; bc "A3"] [bc "R1"; bc "R2"]).

(** The cell A3 is observed, the library stops at A2. *)
Definition demo_env_unmapped : env Z :=
  demo_env demo_peak3 demo_gene2
    [bc "A1"; bc "A2"] [bc "R1"; bc "R2"]
    (demo_bound [bc "A1"; bc "A2"] [bc "R1"; bc "R2"]).

(** As [demo_env_ok], with nothing bound to [atac] and [rna]. *)
Definition demo_env_unbound : env Z :=
  demo_env demo_peak2 demo_gene2
    [bc "A1"; bc "A2"] [bc "R1"; bc "R2"] (demo_globals None None).

(** The file name of a writer call. *)
Definition written_file {num} (e : event num) : option (list N) :=
  match e with
  | Makedirs _ => None
  | Write_10X_h5 f _ _ _ _ _ => Some f
  | Write_10X_h5_multiome f _ _ _ _ _ _ _ => Some f
  end.

(** Three genes over the cells [R9, R2, R1]. *)
Definition demo_gene3 : matrix_dict Z :=
  {| matrix := {| ncols := 3; rows := [[5; 6; 1]; [7; 8; 2]; [9; 0; 3]]%Z |};
     features := demo_gene_features;
     barcodes := [bc "R9"; bc "R2"; bc "R1"] |}.

(** The cells [A1, A2] and [R9, R2, R1] with the three library pairs. *)
Definition demo_env_flag : env Z :=
  demo_env demo_peak2 demo_gene3
    [bc "A1"; bc "A2"; bc "A3"] [bc "R1"; bc "R2"; bc "R9"]
    (demo_bound [bc "A1"; bc "A2"; bc "A3"] [bc "R1"; bc "R2"; bc "R9"]).

(** The locals that the h5 branch binds from [demo_h5]. *)
Definition demo_loaded_h5 : loaded Z :=
  {| peakmatrix := {| ncols := 1; rows := [[4]]%Z |};
     atac_features := [bs "chr10_100020591_100020841"];
     atac_barcodes := [bs "A1"];
     genematrix := {| ncols := 1; rows := [[7]]%Z |};
     rna_features := [bc "GeneA"];
     rna_barcodes := [bc "R1"] |}.

(** The locals that the mtx branch binds from [demo_env]. *)
Definition demo_loaded_mtx (peak gene : matrix_dict Z) : loaded Z :=
  {| peakmatrix := matrix peak;
     atac_features :=
       match res_map py_encode (features peak) with
       | Ok fs => fs
       | Raise _ => []
       end;
     atac_barcodes := barcodes peak; genematrix := matrix gene;
     rna_features := features gene; rna_barcodes := barcodes gene |}.

Definition demo_loaded (peak gene : matrix_dict Z) : loaded Z :=
  {| peakmatrix := matrix peak; atac_features := features peak;
     atac_barcodes := barcodes peak; genematrix := matrix gene;
     rna_features := features gene; rna_barcodes := barcodes gene |}.

(** ** Further definitions used to state properties *)

Definition is_str (v : pyval) : bool :=
  match v with PStr _ => true | PBytes _ => false end.

(** The same surroundings with another file system behind
    [universal_open]. *)
Definition with_universal_open {num} (E : env num)
    (f : list N → string → res (list (list N))) : env num :=
  {| astype_int32 := astype_int32 E; astype_float32 := astype_float32 E;
     unicode_isalnum := unicode_isalnum E; set_iter := set_iter E;
     read_count := read_count E; read_10X_h5 := read_10X_h5 E;
     read_10X_mtx := read_10X_mtx E; universal_open := f; G := G E |}.

(** [demo_args] with another format. *)
Definition demo_args_fmt (fmt : list N) (flag : bool) : args :=
  {| fileformat := fmt; directory := str "out";
     outprefix := str "sample"; rna_to_atac := flag;
     peakcount := str "peak.txt"; genecount := str "gene.txt";
     atac_feature := []; atac_barcode := [];
     rna_feature := str "features.tsv"; gene_column := 2%Z;
     rna_barcode := str "barcodes.tsv";
     atac_barcode_lib := str "atac_lib.txt";
     rna_barcode_lib := str "rna_lib.txt"; species := str "GRCm38" |}.

(** A reader of delimited text files, with [separator] bound and [numpy]
    not. *)
Definition demo_env_plain : env Z :=
  {| astype_int32 := id; astype_float32 := id;
     unicode_isalnum := λ _, false;
     set_iter := elements;
     read_count := λ path _,
       if decide (path = str "peak.txt") then Ok demo_peak2 else Ok demo_gene2;
     read_10X_h5 := λ _, Raise (OtherError "no such file");
     read_10X_mtx := λ _ _ _ _ _, Raise (OtherError "no such file");
     universal_open := λ _ _, Ok [];
     G := {| g_separator := Some (bc "tab"); g_numpy := false;
             g_atac := None; g_rna := None; g_feature := None;
             g_passed_gene := None |} |}.

(** An HDF5 reader whose gene file has no feature. *)
Definition demo_env_h5_empty : env Z :=
  {| astype_int32 := id; astype_float32 := id;
     unicode_isalnum := λ _, false;
     set_iter := elements;
     read_count := λ _ _, Raise (OtherError "no such file");
     read_10X_h5 := λ path,
       if decide (path = str "peak.h5") then demo_h5 path
       else Ok {| h5_matrix := {| ncols := 1; rows := [] |};
                  names := []; h5_barcodes := [bs "R1"] |};
     read_10X_mtx := λ _ _ _ _ _, Raise (OtherError "no such file");
     universal_open := λ _ _, Ok [];
     G := demo_globals None None |}.

(** A code point that a [str] can hold and UTF-8 can encode: below
    0x110000 and no surrogate. *)
Definition valid_cp (c : N) : Prop := c < 0x110000 ∧ is_surrogate c = false.

(** [re.sub("\W", "_", s)] byte by byte, for a name of ASCII bytes. *)
Definition ascii_sub_W (b : list byte) : list byte :=
  (λ x, if is_ascii_word (Byte.to_N x) then x else x5f) <$> b.

(** [demo_env_h5] with the names [atac] and [rna] bound to a library of
    [str] barcodes. *)
Definition demo_env_h5_bound : env Z :=
  {| astype_int32 := id; astype_float32 := id;
     unicode_isalnum := λ _, false;
     set_iter := elements;
     read_count := λ _ _, Raise (OtherError "no such file");
     read_10X_h5 := demo_h5;
     read_10X_mtx := λ _ _ _ _ _, Raise (OtherError "no such file");
     universal_open := λ _ _, Ok [];
     G := demo_bound [bc "A1"] [bc "R1"] |}.

(** * Properties *)

Local Close Scope N_scope.

(** ** Facts about the helpers *)

Lemma res_map_Ok {A B} (f : A → res B) l ys :
  res_map f l = Ok ys ↔ Forall2 (λ x y, f x = Ok y) l ys.
Proof.
  revert ys. induction l as [|x l IH]; intros ys; simpl.
  - split; [intros [= <-]; constructor | by inversion 1].
  - destruct (f x) as [y|e] eqn:Hx; simpl.
    + destruct (res_map f l) as [zs|e] eqn:Hl; simpl.
      * split.
        -- intros [= <-]. constructor; [done | by apply IH].
        -- inversion 1 as [|? y' ? zs' Hy Hzs]; subst.
           apply IH in Hzs. congruence.
      * split; [done|].
        inversion 1 as [|? y' ? zs' Hy Hzs]; subst.
        apply IH in Hzs. congruence.
    + split; [done|]. inversion 1; congruence.
Qed.

Lemma res_map_length {A B} (f : A → res B) l ys :
  res_map f l = Ok ys → length ys = length l.
Proof. rewrite res_map_Ok. intros H. symmetry. by eapply Forall2_length. Qed.

Lemma res_map_is_Ok {A B} (f : A → res B) l :
  (∃ ys, res_map f l = Ok ys) ↔ ∀ x, x ∈ l → ∃ y, f x = Ok y.
Proof.
  induction l as [|x l IH]; simpl.
  - split; [intros _ x Hx; by apply elem_of_nil in Hx | eauto].
  - split.
    + intros [ys Hys] z Hz.
      destruct (f x) as [y|e] eqn:Hx; [|done]. simpl in Hys.
      destruct (res_map f l) as [zs|e] eqn:Hl; [|done].
      apply elem_of_cons in Hz as [->|Hz]; [eauto|].
      apply IH; eauto.
    + intros H. destruct (H x) as [y ->]; [by left|]. simpl.
      destruct (proj2 IH) as [zs ->]; [|simpl; eauto].
      intros z Hz. apply H. by right.
Qed.

(** The comprehension stops at the first element that raises. *)
Lemma res_map_first_raise {A B} (f : A → res B) pre x post e :
  (∀ y, y ∈ pre → ∃ z, f y = Ok z) → f x = Raise e →
  res_map f (pre ++ x :: post) = Raise e.
Proof.
  intros Hpre Hx. induction pre as [|y pre IH]; simpl.
  - by rewrite Hx.
  - destruct (Hpre y) as [z ->]; [by left|]. simpl.
    rewrite IH; [done|]. intros; apply Hpre. by right.
Qed.

Lemma list_index_Ok l x i :
  list_index l x = Ok i ↔ l !! i = Some x ∧ ∀ j, j < i → l !! j ≠ Some x.
Proof.
  unfold list_index.
  destruct (list_find (λ y, y = x) l) as [[k y]|] eqn:Hf.
  - apply list_find_Some in Hf as (Hk & -> & Hlt). split.
    + intros [= <-]. split; [done|]. intros j Hj Hl. by eapply Hlt.
    + intros [Hi Hmin]. f_equal.
      destruct (Nat.lt_trichotomy i k) as [?|[?|?]]; [|done|].
      * exfalso. by eapply Hlt.
      * exfalso. by eapply Hmin.
  - apply list_find_None in Hf. split; [done|]. intros [Hi _].
    rewrite Forall_forall in Hf. exfalso. eapply Hf; [|done].
    by eapply list_elem_of_lookup_2.
Qed.

Lemma list_index_elem l x : (∃ i, list_index l x = Ok i) ↔ x ∈ l.
Proof.
  unfold list_index. split.
  - intros [i Hi].
    destruct (list_find (λ y, y = x) l) as [[k y]|] eqn:Hf; [|done].
    apply list_find_Some in Hf as (Hk & -> & _).
    by eapply list_elem_of_lookup_2.
  - intros Hx.
    destruct (list_find_elem_of (λ y, y = x) l x Hx eq_refl) as [[k y] ->].
    eauto.
Qed.

Lemma list_index_not_elem l x : x ∉ l → list_index l x = Raise (NotInList x).
Proof.
  intros Hx. unfold list_index.
  destruct (list_find (λ y, y = x) l) as [[k y]|] eqn:Hf; [|done].
  apply list_find_Some in Hf as (Hk & -> & _).
  exfalso. apply Hx. by eapply list_elem_of_lookup_2.
Qed.

Lemma list_index_NoDup_seq l :
  NoDup l → res_map (list_index l) l = Ok (seq 0 (length l)).
Proof.
  intros Hl. apply res_map_Ok, Forall2_same_length_lookup_2.
  - by rewrite length_seq.
  - intros i x y Hx Hy. apply lookup_seq in Hy as [-> _]. simpl.
    apply list_index_Ok. split; [done|]. intros j Hj Hjx.
    assert (j = i) by (by eapply NoDup_lookup). lia.
Qed.

Lemma index_rows_seq {num} (m m' : ndarray num) n :
  index_rows m (seq 0 n) = Ok m' → rows m' = take n (rows m).
Proof.
  unfold index_rows. destruct (seq 0 n) as [|i0 idx] eqn:Hseq; [done|].
  rewrite <- Hseq. clear Hseq.
  destruct (res_map _ (seq 0 n)) as [rs|] eqn:Hrs; [|done].
  intros [= <-]. simpl. apply res_map_Ok in Hrs.
  pose proof (Forall2_length _ _ _ Hrs) as Hlen. rewrite length_seq in Hlen.
  apply list_eq. intros i. destruct (decide (i < n)) as [Hi|Hi].
  - rewrite lookup_take_lt by done.
    destruct (lookup_lt_is_Some_2 rs i) as [r Hr]; [lia|].
    eapply Forall2_lookup_lr in Hrs; [|by apply lookup_seq_lt|done].
    simpl in Hrs. rewrite Hr. by destruct (rows m !! i); simplify_eq.
  - rewrite lookup_take_ge by lia. apply lookup_ge_None_2. lia.
Qed.

Lemma Forall2_compose {A B C} (P : A → B → Prop) (Q : B → C → Prop)
    (R : A → C → Prop) l k m :
  (∀ x y z, P x y → Q y z → R x z) →
  Forall2 P l k → Forall2 Q k m → Forall2 R l m.
Proof.
  intros H HP. revert m.
  induction HP; inversion 1; subst; constructor; eauto.
Qed.

Lemma py_dict_list_to_map pairs : py_dict pairs = list_to_map (reverse pairs).
Proof.
  unfold py_dict. induction pairs as [|[k v] pairs IH] using rev_ind; [done|].
  by rewrite foldl_snoc, reverse_snoc, list_to_map_cons, IH.
Qed.

Lemma py_dict_lookup_Some pairs k v :
  py_dict pairs !! k = Some v → (k, v) ∈ pairs.
Proof.
  rewrite py_dict_list_to_map. intros H%elem_of_list_to_map_2.
  by apply elem_of_reverse.
Qed.

Lemma py_dict_lookup_None pairs k :
  py_dict pairs !! k = None ↔ k ∉ pairs.*1.
Proof.
  rewrite py_dict_list_to_map, <- not_elem_of_list_to_map, fmap_reverse.
  by rewrite elem_of_reverse.
Qed.

Lemma elem_of_zip_swap (l k : list pyval) x y :
  (x, y) ∈ zip l k → (y, x) ∈ zip k l.
Proof.
  rewrite !list_elem_of_lookup. intros [i Hi]. exists i.
  apply lookup_zip_with_Some in Hi as (x' & y' & [= -> ->] & Hx & Hy).
  apply lookup_zip_with_Some. eauto.
Qed.

Lemma zip_take_min (l k : list pyval) :
  zip l k = zip (take (length l `min` length k) l)
                (take (length l `min` length k) k).
Proof.
  revert k. induction l as [|x l IH]; intros [|y k]; simpl; try done.
  f_equal. apply IH.
Qed.

Section Properties.

Context {num : Type} (E : env num).

(** [list(s)] enumerates every member of [s] once, in some order. *)
Hypothesis set_iter_elements : ∀ X, set_iter E X ≡ₚ elements X.

Lemma elem_of_overlap xs ys b : b ∈ overlap E xs ys ↔ b ∈ xs ∧ b ∈ ys.
Proof.
  unfold overlap, py_set. rewrite set_iter_elements, elem_of_elements.
  set_solver.
Qed.

Lemma NoDup_overlap xs ys : NoDup (overlap E xs ys).
Proof. unfold overlap. rewrite set_iter_elements. apply NoDup_elements. Qed.

Lemma length_overlap_le xs ys :
  length (overlap E xs ys) ≤ length xs `min` length ys.
Proof.
  apply Nat.min_glb; apply submseteq_length, NoDup_submseteq;
    auto using NoDup_overlap; intros x Hx; apply elem_of_overlap in Hx; tauto.
Qed.

Lemma translate_and_overlap_Ok d observed other translated overlapped :
  translate_and_overlap E d observed other = Ok (translated, overlapped) ↔
  res_map (dict_get d) observed = Ok translated
  ∧ overlapped = overlap E translated other.
Proof.
  unfold translate_and_overlap.
  destruct (res_map (dict_get d) observed) as [tr|]; simpl.
  - split; [by intros [= <- <-] | by intros [[= <-] ->]].
  - split; [done | by intros [? _]].
Qed.

(** C8: whenever the overlapping barcode list is computed (the translation
    of the observed barcodes went through, in whichever direction the flag
    selects), it has at most as many entries as there are observed ATAC
    barcodes and at most as many as there are observed RNA barcodes. *)
Theorem overlap_bound (flag : bool) (atac rna : list pyval) (ld : loaded num)
    (translated overlapped : list pyval) :
  (if flag
   then translate_and_overlap E (py_dict (zip rna atac))
          (rna_barcodes ld) (atac_barcodes ld)
   else translate_and_overlap E (py_dict (zip atac rna))
          (atac_barcodes ld) (rna_barcodes ld)) = Ok (translated, overlapped) →
  length overlapped ≤ length (atac_barcodes ld) `min` length (rna_barcodes ld).
Proof.
  destruct flag; intros [Htr ->]%translate_and_overlap_Ok;
    apply res_map_length in Htr; rewrite <- Htr;
    pose proof (length_overlap_le translated (atac_barcodes ld));
    pose proof (length_overlap_le translated (rna_barcodes ld)); lia.
Qed.

(** C10: with the rna-to-atac flag set, the RNA-side index list is
    [0, 1, ..., n-1] for [n] the length of the overlapping barcode list,
    whatever positions those barcodes have among the observed RNA barcodes;
    indexing the gene matrix with it keeps its first [n] rows. *)
Theorem rna_index_is_identity (atac rna : list pyval) (ld : loaded num)
    (ix : indexed) :
  index_barcodes E true atac rna (Some ld) = Ok ix →
  rna_barcode_idx ix = seq 0 (length (barcode_overlapped ix))
  ∧ ∀ filtered, index_rows (genematrix ld) (rna_barcode_idx ix) = Ok filtered →
      rows filtered = take (length (barcode_overlapped ix)) (rows (genematrix ld)).
Proof.
  unfold index_barcodes, index_rna_to_atac. simpl.
  destruct (translate_and_overlap _ _ _ _) as [[tr ov]|] eqn:Hto; [|done].
  apply translate_and_overlap_Ok in Hto as [_ ->]. simpl.
  rewrite list_index_NoDup_seq by apply NoDup_overlap. simpl.
  destruct (res_map _ (atac_barcodes ld)); [|done]. simpl.
  intros [= <-]. simpl. split; [done|]. intros filtered.
  apply index_rows_seq.
Qed.

(** C5, as amended: when every barcode of the ATAC library has a partner
    (the ATAC list is not longer than the RNA list) and the RNA library
    holds no barcode twice, translating a barcode of the ATAC library to RNA
    and back returns it unchanged. *)
Theorem round_trip_translation (atac rna : list pyval) (b : pyval) :
  length atac ≤ length rna → NoDup rna → b ∈ atac →
  ∃ r, dict_get (py_dict (zip atac rna)) b = Ok r
       ∧ dict_get (py_dict (zip rna atac)) r = Ok b.
Proof.
  intros Hlen Hnd Hb. unfold dict_get.
  destruct (py_dict (zip atac rna) !! b) as [r|] eqn:Hr.
  - exists r. split; [done|].
    apply py_dict_lookup_Some in Hr. pose proof (elem_of_zip_swap _ _ _ _ Hr) as Hrb.
    destruct (py_dict (zip rna atac) !! r) as [b'|] eqn:Hb'.
    + apply py_dict_lookup_Some in Hb'. f_equal.
      apply list_elem_of_lookup in Hrb as [i Hi], Hb' as [j Hj].
      apply lookup_zip_with_Some in Hi as (? & ? & [= <- <-] & Hi1 & Hi2).
      apply lookup_zip_with_Some in Hj as (? & ? & [= <- <-] & Hj1 & Hj2).
      assert (i = j) by (by eapply NoDup_lookup). congruence.
    + apply py_dict_lookup_None in Hb'. exfalso. apply Hb'.
      apply list_elem_of_fmap. by exists (r, b).
  - apply py_dict_lookup_None in Hr. exfalso. apply Hr.
    by rewrite fst_zip.
Qed.

(** C6, as amended: library lists of different lengths raise nothing when
    the two dicts are built; both dicts, and with them the whole index
    computation, are those of the two lists cut to the length of the
    shorter one. *)
Theorem mismatched_libraries_truncate (flag : bool) (atac rna : list pyval)
    (ld : option (loaded num)) :
  length atac ≠ length rna →
  let n := length atac `min` length rna in
  py_dict (zip atac rna) = py_dict (zip (take n atac) (take n rna))
  ∧ py_dict (zip rna atac) = py_dict (zip (take n rna) (take n atac))
  ∧ index_barcodes E flag atac rna ld
    = index_barcodes E flag (take n atac) (take n rna) ld.
Proof.
  intros _ n. unfold index_barcodes.
  assert (zip (take n atac) (take n rna) = zip atac rna) as ->
    by (symmetry; apply zip_take_min).
  assert (zip (take n rna) (take n atac) = zip rna atac) as ->; [|done].
  unfold n. rewrite Nat.min_comm. symmetry. apply zip_take_min.
Qed.

Lemma res_map_index_is_Ok ov l :
  (∃ ys, res_map (list_index ov) l = Ok ys) ↔ ∀ b, b ∈ l → b ∈ ov.
Proof. rewrite res_map_is_Ok. by setoid_rewrite list_index_elem. Qed.

(** C9, as amended: once the observed barcodes are translated, the index
    computation of the default direction completes exactly when every
    translated ATAC barcode and every observed RNA barcode is in the
    overlapping list, that is when the two barcode sets are equal; with the
    rna-to-atac flag set it completes exactly when every observed ATAC
    barcode is in the overlapping list, whatever the translated RNA barcodes
    outside of it. *)
Theorem index_completes_iff (d : gmap pyval pyval)
    (observed translated other : list pyval) :
  res_map (dict_get d) observed = Ok translated →
  ((∃ ix, index_atac_to_rna E d observed other = Ok ix)
     ↔ (∀ b, b ∈ translated → b ∈ overlap E translated other)
       ∧ (∀ b, b ∈ other → b ∈ overlap E translated other))
  ∧ ((∀ b, b ∈ translated → b ∈ overlap E translated other)
       ∧ (∀ b, b ∈ other → b ∈ overlap E translated other)
     ↔ py_set translated = py_set other)
  ∧ ((∃ ix, index_rna_to_atac E d observed other = Ok ix)
     ↔ ∀ b, b ∈ other → b ∈ overlap E translated other).
Proof.
  intros Htr. set (ov := overlap E translated other).
  unfold index_atac_to_rna, index_rna_to_atac, translate_and_overlap.
  rewrite Htr. simpl. fold ov. split_and!.
  - rewrite <- !res_map_index_is_Ok. split.
    + intros [ix Hix].
      destruct (res_map (list_index ov) translated); [|done].
      destruct (res_map (list_index ov) other); [|done]. eauto.
    + intros [[ai ->] [ri ->]]. simpl. eauto.
  - unfold ov. setoid_rewrite elem_of_overlap. unfold py_set.
    rewrite set_eq. setoid_rewrite elem_of_list_to_set. split.
    + intros [H1 H2] b. split; intros Hb; [by apply H1 | by apply H2].
    + intros H. split; intros b Hb.
      * split; [done|]. by apply H.
      * split; [|done]. by apply H.
  - rewrite <- res_map_index_is_Ok.
    rewrite list_index_NoDup_seq by apply NoDup_overlap. simpl. split.
    + intros [ix Hix].
      destruct (res_map (list_index ov) other); [|done]. eauto.
    + intros [ai ->]. simpl. eauto.
Qed.

Lemma barcodemap_body_indexing a ld atac rna :
  reaches_indexing E a ld atac rna →
  barcodemap_body E a
  = res_bind (index_barcodes E (rna_to_atac a) atac rna (Some ld))
             (filter_and_stack E ld).
Proof.
  intros (Hld & [la Hla] & [lr Hlr] & Ha & Hr). unfold barcodemap_body.
  by rewrite Hld, Hla, Hlr, Ha, Hr.
Qed.

Lemma index_barcodes_default atac rna (ld : loaded num) :
  index_barcodes E false atac rna (Some ld)
  = index_atac_to_rna E (py_dict (zip atac rna))
      (atac_barcodes ld) (rna_barcodes ld).
Proof. done. Qed.

Lemma index_barcodes_flag atac rna (ld : loaded num) :
  index_barcodes E true atac rna (Some ld)
  = index_rna_to_atac E (py_dict (zip rna atac))
      (rna_barcodes ld) (atac_barcodes ld).
Proof. done. Qed.

Lemma dict_get_is_Some d x : is_Some (d !! x) → ∃ v, dict_get d x = Ok v.
Proof. intros [v Hv]. exists v. unfold dict_get. by rewrite Hv. Qed.

(** C2, as amended: when an observed barcode of the translated side (RNA
    with the rna-to-atac flag, ATAC without) has no entry in the dict, the
    run stops at the first such barcode with the dict's own [KeyError],
    which carries that barcode; nothing is written and no barcode is
    dropped. *)
Theorem unmapped_barcode_raises_KeyError (a : args) (ld : loaded num)
    (atac rna pre post : list pyval) (b : pyval) :
  reaches_indexing E a ld atac rna →
  let d := if rna_to_atac a then py_dict (zip rna atac)
           else py_dict (zip atac rna) in
  (if rna_to_atac a then rna_barcodes ld else atac_barcodes ld)
    = pre ++ b :: post →
  (∀ x, x ∈ pre → is_Some (d !! x)) →
  d !! b = None →
  barcodemap E a = ([Makedirs (directory a)], Raise (KeyError b)).
Proof.
  intros Hreach d Hobs Hpre Hb. unfold barcodemap.
  rewrite (barcodemap_body_indexing _ _ _ _ Hreach).
  assert (res_map (dict_get d) (pre ++ b :: post) = Raise (KeyError b)) as Hraise.
  { apply res_map_first_raise.
    - intros x Hx. by apply dict_get_is_Some, Hpre.
    - unfold dict_get. by rewrite Hb. }
  unfold index_barcodes, index_rna_to_atac, index_atac_to_rna,
    translate_and_overlap. subst d.
  destruct (rna_to_atac a); simpl; rewrite Hobs, Hraise; done.
Qed.

(** C1, evaluated on the code: in the default direction with ATAC barcodes
    [A1, A2, A3], RNA barcodes [R1, R2] and the library pairs (A1,R1),
    (A2,R2), (A3,R9), the overlapping list holds exactly R1 and R2, but then
    the position of the translated barcode R9 is asked of that list: the run
    stops with [ValueError] and no matrix is filtered or written. *)
Theorem column_alignment_raises (a : args) (ld : loaded num) :
  reaches_indexing E a ld [bc "A1"; bc "A2"; bc "A3"]
                          [bc "R1"; bc "R2"; bc "R9"] →
  rna_to_atac a = false →
  atac_barcodes ld = [bc "A1"; bc "A2"; bc "A3"] →
  rna_barcodes ld = [bc "R1"; bc "R2"] →
  overlap E [bc "R1"; bc "R2"; bc "R9"] [bc "R1"; bc "R2"]
    ≡ₚ [bc "R1"; bc "R2"]
  ∧ barcodemap E a = ([Makedirs (directory a)], Raise (NotInList (bc "R9"))).
Proof.
  intros Hreach Hflag Hatac Hrna. split.
  - apply NoDup_Permutation;
      [apply NoDup_overlap | apply (bool_decide_unpack _); by vm_compute |].
    intros x. rewrite elem_of_overlap, !elem_of_cons, !elem_of_nil. tauto.
  - unfold barcodemap. rewrite (barcodemap_body_indexing _ _ _ _ Hreach).
    rewrite Hflag, index_barcodes_default, Hatac, Hrna.
    unfold index_atac_to_rna, translate_and_overlap.
    assert (res_map
              (dict_get (py_dict (zip [bc "A1"; bc "A2"; bc "A3"]
                                      [bc "R1"; bc "R2"; bc "R9"])))
              [bc "A1"; bc "A2"; bc "A3"]
            = Ok [bc "R1"; bc "R2"; bc "R9"]) as -> by (by vm_compute).
    cbn [res_bind].
    rewrite (res_map_first_raise _ [bc "R1"; bc "R2"] (bc "R9") []
               (NotInList (bc "R9"))); [done| |].
    + intros y Hy. apply list_index_elem, elem_of_overlap.
      revert Hy. rewrite !elem_of_cons, !elem_of_nil. tauto.
    + apply list_index_not_elem. rewrite elem_of_overlap.
      intros [_ H]. apply (bool_decide_pack _) in H. by vm_compute in H.
Qed.

(** C7: in the h5 format every peak name is decoded, each of its characters
    that is not a word character is replaced by an underscore, and the
    result, encoded again, is the row identifier; so
    chr10:100020591-100020841 becomes chr10_100020591_100020841. *)
Theorem peak_names_normalized (a : args) (ld : loaded num) (c : h5_count num) :
  fileformat a = str "h5" →
  load E a = Ok (Some ld) →
  read_10X_h5 E (peakcount a) = Ok c →
  Forall2 (λ name feature, ∃ b s,
             name = PBytes b ∧ utf8_decode b = Some s
             ∧ py_encode (PStr ((λ ch, if is_word E ch then ch else 0x5F%N)
                                  <$> s)) = Ok feature)
          (names c) (atac_features ld)
  ∧ normalize_peak_names E [bs "chr10:100020591-100020841"]
    = Ok [bs "chr10_100020591_100020841"].
Proof.
  intros Hfmt Hload Hread. split; [|by vm_compute].
  unfold load in Hload. rewrite Hfmt in Hload. simpl in Hload.
  unfold load_h5 in Hload. rewrite Hread in Hload. simpl in Hload.
  destruct (normalize_peak_names E (names c)) as [fs|] eqn:Hfs; [|done].
  simpl in Hload.
  assert (atac_features ld = fs) as ->.
  { destruct (read_10X_h5 E (genecount a)); [|done]. simpl in Hload.
    destruct (decode_if_bytes _); [|done]. simpl in Hload.
    destruct (decode_if_bytes _); [|done]. simpl in Hload.
    by injection Hload as <-. }
  clear Hload. unfold normalize_peak_names in Hfs.
  destruct (res_map _ (names c)) as [ss|] eqn:Hss; [|done]. simpl in Hfs.
  apply res_map_Ok in Hss, Hfs.
  eapply Forall2_compose; [|exact Hss|exact Hfs].
  intros name v feature Hv Hf. simpl in Hv.
  destruct name as [|b]; [done|]. simpl in Hv.
  destruct (utf8_decode b) as [s|] eqn:Hs; [|done]. simpl in Hv.
  injection Hv as <-. eauto.
Qed.



(** A run that ends normally made exactly the three writer calls. *)
Lemma successful_run_trace (a : args) t :
  barcodemap E a = (t, Ok ()) →
  ∃ l, barcodemap_body E a = Ok l
       ∧ t = Makedirs (directory a) :: write_outputs a l.
Proof.
  unfold barcodemap. destruct (barcodemap_body E a) as [l|]; [|done].
  intros [= <-]. eauto.
Qed.

End Properties.

(** * The function on the concrete surroundings *)

Lemma demo_set_iter (peak gene : matrix_dict Z) al rl g :
  ∀ X, set_iter (demo_env peak gene al rl g) X ≡ₚ elements X.
Proof. done. Qed.

Lemma overlap_bound_witness :
  translate_and_overlap demo_env_r9
    (py_dict (zip [bc "A1"; bc "A2"; bc "A3"] [bc "R1"; bc "R2"; bc "R9"]))
    [bc "A1"; bc "A2"; bc "A3"] [bc "R1"; bc "R2"]
  = Ok ([bc "R1"; bc "R2"; bc "R9"], [bc "R2"; bc "R1"])
  ∧ length [bc "R2"; bc "R1"] ≤ 3 `min` 2.
Proof.
  assert (translate_and_overlap demo_env_r9
    (py_dict (zip [bc "A1"; bc "A2"; bc "A3"] [bc "R1"; bc "R2"; bc "R9"]))
    [bc "A1"; bc "A2"; bc "A3"] [bc "R1"; bc "R2"]
  = Ok ([bc "R1"; bc "R2"; bc "R9"], [bc "R2"; bc "R1"])) as H
    by (vm_compute; reflexivity).
  split; [exact H|].
  exact (overlap_bound demo_env_r9 (demo_set_iter _ _ _ _ _) false
           [bc "A1"; bc "A2"; bc "A3"] [bc "R1"; bc "R2"; bc "R9"]
           (demo_loaded demo_peak3 demo_gene2) _ _ H).
Defined.

Lemma rna_index_is_identity_witness :
  index_barcodes demo_env_flag true
    [bc "A1"; bc "A2"; bc "A3"] [bc "R1"; bc "R2"; bc "R9"]
    (Some (demo_loaded demo_peak2 demo_gene3))
  = Ok {| barcode_overlapped := [bc "A2"; bc "A1"];
          rna_barcode_idx := [0; 1]; atac_barcode_idx := [1; 0] |}
  ∧ [0; 1] = seq 0 (length [bc "A2"; bc "A1"]).
Proof.
  assert (index_barcodes demo_env_flag true
    [bc "A1"; bc "A2"; bc "A3"] [bc "R1"; bc "R2"; bc "R9"]
    (Some (demo_loaded demo_peak2 demo_gene3))
  = Ok {| barcode_overlapped := [bc "A2"; bc "A1"];
          rna_barcode_idx := [0; 1]; atac_barcode_idx := [1; 0] |}) as H
    by (vm_compute; reflexivity).
  split; [exact H|].
  exact (proj1 (rna_index_is_identity demo_env_flag (demo_set_iter _ _ _ _ _)
                  _ _ _ _ H)).
Defined.

Lemma round_trip_translation_witness :
  length [bc "A1"; bc "A2"] ≤ length [bc "R1"; bc "R2"]
  ∧ NoDup [bc "R1"; bc "R2"]
  ∧ bc "A1" ∈ [bc "A1"; bc "A2"]
  ∧ ∃ r, dict_get (py_dict (zip [bc "A1"; bc "A2"] [bc "R1"; bc "R2"]))
           (bc "A1") = Ok r
         ∧ dict_get (py_dict (zip [bc "R1"; bc "R2"] [bc "A1"; bc "A2"])) r
           = Ok (bc "A1").
Proof.
  assert (length [bc "A1"; bc "A2"] ≤ length [bc "R1"; bc "R2"]) as H1
    by (simpl; lia).
  assert (NoDup [bc "R1"; bc "R2"]) as H2
    by (apply (bool_decide_unpack _); vm_compute; exact I).
  assert (bc "A1" ∈ [bc "A1"; bc "A2"]) as H3 by (apply list_elem_of_here).
  split_and!; [exact H1 | exact H2 | exact H3 |].
  exact (round_trip_translation _ _ _ H1 H2 H3).
Defined.

(** C5 fails as stated: with the library pairs (A1,R1), (A2,R1) the
    barcode A1 translates to R1, and R1 translates back to A2. *)
Lemma round_trip_repeated_rna_barcode :
  bc "A1" ∈ [bc "A1"; bc "A2"]
  ∧ dict_get (py_dict (zip [bc "A1"; bc "A2"] [bc "R1"; bc "R1"])) (bc "A1")
    = Ok (bc "R1")
  ∧ dict_get (py_dict (zip [bc "R1"; bc "R1"] [bc "A1"; bc "A2"])) (bc "R1")
    = Ok (bc "A2")
  ∧ bc "A2" ≠ bc "A1".
Proof.
  split_and!; [apply list_elem_of_here | by vm_compute | by vm_compute |].
  by vm_compute.
Qed.

Lemma mismatched_libraries_truncate_witness :
  length [bc "A1"; bc "A2"; bc "A3"] ≠ length [bc "R1"; bc "R2"]
  ∧ index_barcodes demo_env_mismatch false
      [bc "A1"; bc "A2"; bc "A3"] [bc "R1"; bc "R2"]
      (Some (demo_loaded demo_peak2 demo_gene2))
    = index_barcodes demo_env_mismatch false
        [bc "A1"; bc "A2"] [bc "R1"; bc "R2"]
        (Some (demo_loaded demo_peak2 demo_gene2)).
Proof.
  assert (length [bc "A1"; bc "A2"; bc "A3"] ≠ length [bc "R1"; bc "R2"]) as H
    by (simpl; lia).
  split; [exact H|].
  exact (proj2 (proj2 (mismatched_libraries_truncate demo_env_mismatch false
                         [bc "A1"; bc "A2"; bc "A3"] [bc "R1"; bc "R2"]
                         (Some (demo_loaded demo_peak2 demo_gene2)) H))).
Defined.

(** C6 fails as stated: the library files have three and two lines, and
    the run ends normally with its three writer calls. *)
Lemma mismatched_libraries_run :
  read_barcode_lib demo_env_mismatch (atac_barcode_lib (demo_args false))
    = Ok [bc "A1"; bc "A2"; bc "A3"]
  ∧ read_barcode_lib demo_env_mismatch (rna_barcode_lib (demo_args false))
    = Ok [bc "R1"; bc "R2"]
  ∧ g_atac (G demo_env_mismatch) = Some [bc "A1"; bc "A2"; bc "A3"]
  ∧ g_rna (G demo_env_mismatch) = Some [bc "R1"; bc "R2"]
  ∧ snd (barcodemap demo_env_mismatch (demo_args false)) = Ok ()
  ∧ length (fst (barcodemap demo_env_mismatch (demo_args false))) = 4.
Proof. split_and!; by vm_compute. Qed.

Lemma index_completes_iff_witness :
  res_map (dict_get (py_dict (zip [bc "A1"; bc "A2"] [bc "R1"; bc "R2"])))
    [bc "A1"; bc "A2"] = Ok [bc "R1"; bc "R2"]
  ∧ ((∃ ix, index_rna_to_atac demo_env_ok
              (py_dict (zip [bc "A1"; bc "A2"] [bc "R1"; bc "R2"]))
              [bc "A1"; bc "A2"] [bc "R1"; bc "R2"] = Ok ix)
     ↔ ∀ b, b ∈ [bc "R1"; bc "R2"] →
            b ∈ overlap demo_env_ok [bc "R1"; bc "R2"] [bc "R1"; bc "R2"]).
Proof.
  assert (res_map
            (dict_get (py_dict (zip [bc "A1"; bc "A2"] [bc "R1"; bc "R2"])))
            [bc "A1"; bc "A2"] = Ok [bc "R1"; bc "R2"]) as H
    by (vm_compute; reflexivity).
  split; [exact H|].
  exact (proj2 (proj2 (index_completes_iff demo_env_ok
                         (demo_set_iter _ _ _ _ _) _ _ _
                         [bc "R1"; bc "R2"] H))).
Defined.

(** C9 fails as stated: with the rna-to-atac flag, the RNA barcodes
    [R9, R2, R1] and the ATAC barcodes [A1, A2], the index computation
    completes although R9 translates to A3, which is outside the overlapping
    list. *)
Lemma index_completes_outside_overlap :
  res_map (dict_get (py_dict (zip [bc "R1"; bc "R2"; bc "R9"]
                                  [bc "A1"; bc "A2"; bc "A3"])))
    [bc "R9"; bc "R2"; bc "R1"] = Ok [bc "A3"; bc "A2"; bc "A1"]
  ∧ index_barcodes demo_env_flag true
      [bc "A1"; bc "A2"; bc "A3"] [bc "R1"; bc "R2"; bc "R9"]
      (Some (demo_loaded demo_peak2 demo_gene3))
    = Ok {| barcode_overlapped := [bc "A2"; bc "A1"];
            rna_barcode_idx := [0; 1]; atac_barcode_idx := [1; 0] |}
  ∧ bc "A3" ∉ [bc "A2"; bc "A1"].
Proof.
  split_and!; [by vm_compute | by vm_compute |].
  intros H. apply (bool_decide_pack _) in H. by vm_compute in H.
Qed.

Lemma unmapped_barcode_raises_KeyError_witness :
  reaches_indexing demo_env_unmapped (demo_args false)
    (demo_loaded_mtx demo_peak3 demo_gene2)
    [bc "A1"; bc "A2"] [bc "R1"; bc "R2"]
  ∧ py_dict (zip [bc "A1"; bc "A2"] [bc "R1"; bc "R2"]) !! bc "A3" = None
  ∧ barcodemap demo_env_unmapped (demo_args false)
    = ([Makedirs (str "out")], Raise (KeyError (bc "A3"))).
Proof.
  assert (reaches_indexing demo_env_unmapped (demo_args false)
            (demo_loaded_mtx demo_peak3 demo_gene2)
            [bc "A1"; bc "A2"] [bc "R1"; bc "R2"]) as Hreach.
  { split_and!; [by vm_compute | eexists; by vm_compute
                 | eexists; by vm_compute | done | done]. }
  assert (py_dict (zip [bc "A1"; bc "A2"] [bc "R1"; bc "R2"]) !! bc "A3"
          = None) as Hnone by (by vm_compute).
  split_and!; [exact Hreach | exact Hnone |].
  refine (unmapped_barcode_raises_KeyError demo_env_unmapped
            (demo_args false) (demo_loaded_mtx demo_peak3 demo_gene2)
            [bc "A1"; bc "A2"] [bc "R1"; bc "R2"]
            [bc "A1"; bc "A2"] [] (bc "A3") Hreach eq_refl _ Hnone).
  intros x Hx. apply (bool_decide_unpack _).
  apply elem_of_cons in Hx as [->|Hx]; [by vm_compute|].
  apply elem_of_cons in Hx as [->|Hx]; [by vm_compute|].
  by apply elem_of_nil in Hx.
Defined.

(** C2 fails as stated: the observed cell A3 has no entry in the dict, and
    what ends the run is the [KeyError] of the dict lookup itself. *)
Lemma unmapped_barcode_is_key_error :
  bc "A3" ∈ atac_barcodes (demo_loaded_mtx demo_peak3 demo_gene2)
  ∧ py_dict (zip [bc "A1"; bc "A2"] [bc "R1"; bc "R2"]) !! bc "A3" = None
  ∧ ∃ key, snd (barcodemap demo_env_unmapped (demo_args false))
           = Raise (KeyError key).
Proof.
  split_and!; [|by vm_compute | eexists; by vm_compute].
  apply (bool_decide_unpack _). by vm_compute.
Qed.

Lemma column_alignment_raises_witness :
  reaches_indexing demo_env_r9 (demo_args false)
    (demo_loaded_mtx demo_peak3 demo_gene2)
    [bc "A1"; bc "A2"; bc "A3"] [bc "R1"; bc "R2"; bc "R9"]
  ∧ barcodemap demo_env_r9 (demo_args false)
    = ([Makedirs (str "out")], Raise (NotInList (bc "R9"))).
Proof.
  assert (reaches_indexing demo_env_r9 (demo_args false)
            (demo_loaded_mtx demo_peak3 demo_gene2)
            [bc "A1"; bc "A2"; bc "A3"] [bc "R1"; bc "R2"; bc "R9"]) as Hreach.
  { split_and!; [by vm_compute | eexists; by vm_compute
                 | eexists; by vm_compute | done | done]. }
  split; [exact Hreach|].
  exact (proj2 (column_alignment_raises demo_env_r9 (demo_set_iter _ _ _ _ _)
                  (demo_args false) (demo_loaded_mtx demo_peak3 demo_gene2)
                  Hreach eq_refl eq_refl eq_refl)).
Defined.

Lemma peak_names_normalized_witness :
  fileformat demo_args_h5 = str "h5"
  ∧ load demo_env_h5 demo_args_h5 = Ok (Some demo_loaded_h5)
  ∧ Forall2 (λ name feature, ∃ b s,
               name = PBytes b ∧ utf8_decode b = Some s
               ∧ py_encode
                   (PStr ((λ ch, if is_word demo_env_h5 ch then ch else 0x5F%N)
                            <$> s)) = Ok feature)
            [bs "chr10:100020591-100020841"]
            [bs "chr10_100020591_100020841"]
  ∧ normalize_peak_names demo_env_h5 [bs "chr10:100020591-100020841"]
    = Ok [bs "chr10_100020591_100020841"].
Proof.
  assert (load demo_env_h5 demo_args_h5 = Ok (Some demo_loaded_h5)) as Hload
    by (by vm_compute).
  split_and!; [reflexivity | exact Hload | |].
  - exact (proj1 (peak_names_normalized demo_env_h5 demo_args_h5
                    demo_loaded_h5
                    {| h5_matrix := {| ncols := 1; rows := [[4]]%Z |};
                       names := [bs "chr10:100020591-100020841"];
                       h5_barcodes := [bs "A1"] |}
                    eq_refl Hload eq_refl)).
  - exact (proj2 (peak_names_normalized demo_env_h5 demo_args_h5
                    demo_loaded_h5
                    {| h5_matrix := {| ncols := 1; rows := [[4]]%Z |};
                       names := [bs "chr10:100020591-100020841"];
                       h5_barcodes := [bs "A1"] |}
                    eq_refl Hload eq_refl)).
Defined.

(** C3, evaluated on the code: a run with directory [out] and prefix
    [sample] ends normally after three writer calls, and the three file
    names are the prefix followed by the fixed suffix; the directory is
    created and then left out of every file name. *)
Theorem outputs_beside_directory :
  directory (demo_args false) = str "out"
  ∧ outprefix (demo_args false) = str "sample"
  ∧ snd (barcodemap demo_env_ok (demo_args false)) = Ok ()
  ∧ head (fst (barcodemap demo_env_ok (demo_args false)))
    = Some (Makedirs (str "out"))
  ∧ omap written_file (fst (barcodemap demo_env_ok (demo_args false)))
    = [str "sample_multiome_gene_count.h5";
       str "sample_multiome_peak_count.h5";
       str "sample_multiome_feature_count.h5"].
Proof. split_and!; by vm_compute. Qed.

(** C4, evaluated on the code: three genes and three peaks over two shared
    cells.  The row identifiers are the three gene names followed by the
    three peak names, but the stacked matrix has four rows: each matrix was
    indexed by the barcode positions along its first axis, the feature
    axis. *)
Theorem stacked_rows_follow_barcodes :
  ∃ l, barcodemap_body demo_env_ok (demo_args false) = Ok l
       ∧ barcode_overlapped (ix l) = [bc "R2"; bc "R1"]
       ∧ all_features l
         = [bc "GeneA"; bc "GeneB"; bc "GeneC";
            bs "chr1_10_20"; bs "chr1_30_40"; bs "chr2_5_9"]
       ∧ all_feature_matrix l
         = {| ncols := 2; rows := [[7; 8]; [5; 6]; [0; 2]; [1; 0]]%Z |}
       ∧ nrows (all_feature_matrix l) = 4
       ∧ length (out_rna_features l) + length (out_atac_features l) = 6.
Proof. eexists. split_and!; by vm_compute. Qed.

(** With nothing bound to the names [atac] and [rna], the run stops where
    the first dict is built. *)
Example unbound_library_names :
  barcodemap demo_env_unbound (demo_args false)
  = ([Makedirs (str "out")], Raise (NameError "atac")).
Proof. by vm_compute. Qed.

Example utf8_decode_two_bytes : utf8_decode [xc3; xa9] = Some [0xE9%N].
Proof. reflexivity. Qed.

Example utf8_decode_overlong : utf8_decode [xc0; x80] = None.
Proof. reflexivity. Qed.

Example utf8_encode_euro : utf8_encode [0x20AC%N] = Some [xe2; x82; xac].
Proof. reflexivity. Qed.

Example strip_line : strip (str "  ACGT" ++ [0x0A%N]) = str "ACGT".
Proof. reflexivity. Qed.

(** * Further properties of [barcodemap] *)

Section Loading.

Context {num : Type} (E : env num).

Lemma load_plain_eq a :
  fileformat a = str "plain" →
  load E a = res_bind (load_plain E a) (λ l, Ok (Some l)).
Proof. intros H. unfold load. by rewrite H. Qed.

Lemma load_h5_eq a :
  fileformat a = str "h5" →
  load E a = res_bind (load_h5 E a) (λ l, Ok (Some l)).
Proof. intros H. unfold load. by rewrite H. Qed.

Lemma load_mtx_eq a :
  fileformat a = str "mtx" →
  load E a = res_bind (load_mtx E a) (λ l, Ok (Some l)).
Proof. intros H. unfold load. by rewrite H. Qed.

(** X1: in the plain format the delimiter is read from the name
    [separator], which is no parameter of the function; when the name is
    unbound the run stops with [NameError] before any file is read. *)
Theorem plain_needs_separator (a : args) :
  fileformat a = str "plain" →
  g_separator (G E) = None →
  barcodemap E a = ([Makedirs (directory a)], Raise (NameError "separator")).
Proof.
  intros Hfmt Hsep. unfold barcodemap, barcodemap_body.
  rewrite (load_plain_eq _ Hfmt). unfold load_plain. by rewrite Hsep.
Qed.

(** X2: in the plain format, once both matrix files are read and the peak
    names encoded, the gene matrix is cast with [numpy.float32]; the module
    imports numpy as [np] only, and with [numpy] unbound the run stops there
    with [NameError]. *)
Theorem plain_needs_numpy (a : args) sep peak fs gene :
  fileformat a = str "plain" →
  g_separator (G E) = Some sep →
  read_count E (peakcount a) sep = Ok peak →
  res_map py_encode (features peak) = Ok fs →
  read_count E (genecount a) sep = Ok gene →
  g_numpy (G E) = false →
  barcodemap E a = ([Makedirs (directory a)], Raise (NameError "numpy")).
Proof.
  intros Hfmt Hsep Hpeak Hfs Hgene Hnp. unfold barcodemap, barcodemap_body.
  rewrite (load_plain_eq _ Hfmt). unfold load_plain.
  rewrite Hsep. simpl. rewrite Hpeak. simpl. rewrite Hfs. simpl.
  rewrite Hgene. simpl. by rewrite Hnp.
Qed.


(** X4: in the h5 format the type of the first gene name and of the first
    RNA barcode decides whether the list is decoded; a gene file without
    features, or without barcodes, makes the load stop with [IndexError]. *)
Theorem h5_empty_gene_lists (a : args) peak fs gene :
  fileformat a = str "h5" →
  read_10X_h5 E (peakcount a) = Ok peak →
  normalize_peak_names E (names peak) = Ok fs →
  read_10X_h5 E (genecount a) = Ok gene →
  names gene = []
  ∨ ((∃ l, decode_if_bytes (names gene) = Ok l) ∧ h5_barcodes gene = []) →
  load E a = Raise IndexError.
Proof.
  intros Hfmt Hpeak Hfs Hgene Hempty.
  rewrite (load_h5_eq _ Hfmt). unfold load_h5.
  rewrite Hpeak. simpl. rewrite Hfs. simpl. rewrite Hgene. simpl.
  destruct Hempty as [-> | [[l ->] ->]]; done.
Qed.

Lemma py_encode_is_bytes l fs :
  res_map py_encode l = Ok fs → Forall (λ v, is_bytes v = true) fs.
Proof.
  rewrite res_map_Ok. induction 1 as [|x y l fs Hxy _ IH]; constructor; [|done].
  destruct x as [s|b]; [|done]. simpl in Hxy.
  by destruct (utf8_encode s); simplify_eq.
Qed.

(** X5: whatever the format, after a successful load every peak
    identifier is a [bytes] value (the gene identifiers are left as the
    reader gave them, or decoded to [str]). *)
Theorem atac_features_are_bytes (a : args) (ld : loaded num) :
  load E a = Ok (Some ld) →
  Forall (λ v, is_bytes v = true) (atac_features ld).
Proof.
  unfold load. repeat case_decide; [| | |done].
  - unfold load_plain.
    destruct (lookup_name "separator" _) as [sep|]; [|done]. simpl.
    destruct (read_count E (peakcount a) sep) as [mp|]; [|done]. simpl.
    destruct (res_map py_encode _) as [fs|] eqn:Hfs; [|done]. simpl.
    destruct (read_count E (genecount a) sep); [|done]. simpl.
    destruct (lookup_name "numpy" _); [|done]. simpl.
    intros [= <-]. simpl. by eapply py_encode_is_bytes.
  - unfold load_h5, normalize_peak_names.
    destruct (read_10X_h5 E (peakcount a)) as [c|]; [|done]. simpl.
    destruct (res_map _ (names c)) as [ss|]; [|done]. simpl.
    destruct (res_map py_encode ss) as [fs|] eqn:Hfs; [|done]. simpl.
    destruct (read_10X_h5 E (genecount a)); [|done]. simpl.
    destruct (decode_if_bytes _); [|done]. simpl.
    destruct (decode_if_bytes _); [|done]. simpl.
    intros [= <-]. simpl. by eapply py_encode_is_bytes.
  - unfold load_mtx.
    destruct (read_10X_mtx E (peakcount a) _ _ _ _) as [mp|]; [|done]. simpl.
    destruct (res_map py_encode _) as [fs|] eqn:Hfs; [|done]. simpl.
    destruct (read_10X_mtx E (genecount a) _ _ _ _); [|done]. simpl.
    intros [= <-]. simpl. by eapply py_encode_is_bytes.
Qed.

End Loading.

(** ** The barcode library files *)

Lemma lstrip_split s :
  ∃ pre, s = pre ++ lstrip s ∧ Forall (λ c, is_space c = true) pre.
Proof.
  induction s as [|c s [pre [Hs Hpre]]]; simpl.
  - by exists [].
  - destruct (is_space c) eqn:Hc.
    + exists (c :: pre). split; [by rewrite Hs at 1 | by constructor].
    + by exists [].
Qed.

Lemma lstrip_head s c : head (lstrip s) = Some c → is_space c = false.
Proof.
  induction s as [|c' s IH]; simpl; [done|].
  destruct (is_space c') eqn:Hc; [done|]. simpl. by intros [= <-].
Qed.

Lemma lstrip_spaces s : Forall (λ c, is_space c = true) s → lstrip s = [].
Proof. induction 1 as [|c s Hc _ IH]; simpl; [done|]. by rewrite Hc. Qed.

(** [strip] removes a run of whitespace at either end and nothing else. *)
Lemma strip_split s :
  ∃ pre post, s = pre ++ strip s ++ post
    ∧ Forall (λ c, is_space c = true) pre
    ∧ Forall (λ c, is_space c = true) post.
Proof.
  destruct (lstrip_split s) as [pre [Hs Hpre]].
  destruct (lstrip_split (reverse (lstrip s))) as [post [Ht Hpost]].
  exists pre, (reverse post). split_and!; [|done|by apply Forall_reverse].
  unfold strip. rewrite <- reverse_app, <- Ht, reverse_involutive. done.
Qed.

Lemma strip_ends s :
  (∀ c, head (strip s) = Some c → is_space c = false)
  ∧ (∀ c, last (strip s) = Some c → is_space c = false).
Proof.
  split; intros c Hc.
  - destruct (lstrip_split (reverse (lstrip s))) as [post [Ht _]].
    apply (f_equal reverse) in Ht.
    rewrite reverse_involutive, reverse_app in Ht. fold (strip s) in Ht.
    apply (lstrip_head s). rewrite Ht.
    destruct (strip s); [done|]. done.
  - unfold strip in Hc. rewrite last_reverse in Hc. by eapply lstrip_head.
Qed.

Section Library.

Context {num : Type} (E : env num).

(** X6: a library file that can be opened gives one barcode per line, in
    line order and as [str]: the line without the whitespace at its two
    ends.  A line of whitespace only is kept, as the empty barcode. *)
Theorem barcode_lib_lines (path : list N) (lines : list (list N)) :
  universal_open E path "rt" = Ok lines →
  ∃ l, read_barcode_lib E path = Ok l
       ∧ length l = length lines
       ∧ ∀ i line, lines !! i = Some line →
           ∃ s pre post,
             l !! i = Some (PStr s)
             ∧ line = pre ++ s ++ post
             ∧ Forall (λ c, is_space c = true) pre
             ∧ Forall (λ c, is_space c = true) post
             ∧ (∀ c, head s = Some c → is_space c = false)
             ∧ (∀ c, last s = Some c → is_space c = false)
             ∧ (Forall (λ c, is_space c = true) line → s = []).
Proof.
  intros Hopen. unfold read_barcode_lib. rewrite Hopen. simpl.
  eexists. split; [done|]. split; [by rewrite length_fmap|].
  intros i line Hi. rewrite list_lookup_fmap, Hi. simpl.
  destruct (strip_split line) as (pre & post & Hline & Hpre & Hpost).
  destruct (strip_ends line) as [Hhead Hlast].
  exists (strip line), pre, post. split_and!; try done.
  intros Hsp. unfold strip. by rewrite (lstrip_spaces _ Hsp).
Qed.

(** X7: the lists read from the two library files are never used.  Two
    file systems under which both files can be opened give the same run,
    whatever the files hold. *)
Theorem library_contents_unused (a : args)
    (f g : list N → string → res (list (list N))) :
  (∃ l, f (atac_barcode_lib a) "rt" = Ok l) →
  (∃ l, f (rna_barcode_lib a) "rt" = Ok l) →
  (∃ l, g (atac_barcode_lib a) "rt" = Ok l) →
  (∃ l, g (rna_barcode_lib a) "rt" = Ok l) →
  barcodemap (with_universal_open E f) a
  = barcodemap (with_universal_open E g) a.
Proof.
  intros [fa Hfa] [fr Hfr] [ga Hga] [gr Hgr].
  unfold barcodemap, barcodemap_body, read_barcode_lib. simpl.
  rewrite Hfa, Hfr, Hga, Hgr. simpl.
  change (load (with_universal_open E f) a) with (load E a).
  change (load (with_universal_open E g) a) with (load E a).
  destruct (load E a) as [ld|]; [|done]. simpl.
  destruct (lookup_name "atac" _) as [atac|]; [|done]. simpl.
  destruct (lookup_name "rna" _) as [rna|]; [|done]. simpl.
  change (index_barcodes (with_universal_open E f))
    with (index_barcodes E).
  change (index_barcodes (with_universal_open E g))
    with (index_barcodes E).
  destruct (index_barcodes E _ _ _ _) as [ix|]; [|done]. simpl.
  destruct ld as [ld|]; [|done].
  change (filter_and_stack (with_universal_open E f))
    with (filter_and_stack E).
  change (filter_and_stack (with_universal_open E g))
    with (filter_and_stack E).
  done.
Qed.

End Library.

(** ** The two dicts *)

Lemma py_dict_snoc pairs k v :
  py_dict (pairs ++ [(k, v)]) = <[k:=v]> (py_dict pairs).
Proof. unfold py_dict. by rewrite foldl_snoc. Qed.

Lemma py_dict_lookup_last pairs i k v :
  pairs !! i = Some (k, v) →
  (∀ j v', i < j → pairs !! j ≠ Some (k, v')) →
  py_dict pairs !! k = Some v.
Proof.
  induction pairs as [|[k' v'] pairs IH] using rev_ind; [done|].
  intros Hi Hlast. rewrite py_dict_snoc.
  destruct (decide (i = length pairs)) as [->|Hne].
  - rewrite lookup_app_r, Nat.sub_diag in Hi by done.
    injection Hi as -> ->. apply lookup_insert_eq.
  - assert (i < length pairs) as Hlt.
    { apply lookup_lt_Some in Hi. rewrite length_app in Hi. simpl in Hi. lia. }
    rewrite lookup_app_l in Hi by done.
    assert (k' ≠ k) as Hk.
    { intros ->. apply (Hlast (length pairs) v'); [done|].
      by rewrite lookup_app_r, Nat.sub_diag. }
    rewrite lookup_insert_ne by done. apply IH; [done|].
    intros j v'' Hj Hjv. apply (Hlast j v''); [done|].
    rewrite lookup_app_l; [done|]. by eapply lookup_lt_Some.
Qed.

Lemma fst_zip_take (l k : list pyval) : (zip l k).*1 = take (length k) l.
Proof.
  revert k. induction l as [|x l IH]; intros [|y k]; simpl; try done.
  by rewrite IH.
Qed.

(** X8: when a barcode stands on several lines of the first library list,
    the dict keeps the partner of its last line that still has a partner:
    a later pair overrides an earlier one. *)
Theorem dict_last_pair_wins (atac rna : list pyval) i a r :
  atac !! i = Some a →
  rna !! i = Some r →
  (∀ j, i < j → j < length rna → atac !! j ≠ Some a) →
  dict_get (py_dict (zip atac rna)) a = Ok r.
Proof.
  intros Ha Hr Hlast. unfold dict_get.
  rewrite (py_dict_lookup_last _ i a r); [done| |].
  - apply lookup_zip_with_Some. eauto.
  - intros j v' Hj Hjv.
    apply lookup_zip_with_Some in Hjv as (x & y & [= <- <-] & Hx & Hy).
    apply (Hlast j); [done| |done]. by eapply lookup_lt_Some.
Qed.

(** X9: when the first library list holds no barcode twice, the dict is
    the positional correspondence of the help text: the barcode of line
    [i] translates to the barcode of line [i] of the other list. *)
Theorem dict_is_positional (atac rna : list pyval) i a r :
  NoDup atac →
  atac !! i = Some a →
  rna !! i = Some r →
  dict_get (py_dict (zip atac rna)) a = Ok r.
Proof.
  intros Hnd Ha Hr. unfold dict_get.
  rewrite (py_dict_lookup_last _ i a r); [done| |].
  - apply lookup_zip_with_Some. eauto.
  - intros j v' Hj Hjv.
    apply lookup_zip_with_Some in Hjv as (x & y & [= <- <-] & Hx & Hy).
    assert (i = j) by (by eapply NoDup_lookup). lia.
Qed.

Lemma dict_missing_key_take (atac rna : list pyval) k :
  k ∉ take (length rna) atac →
  dict_get (py_dict (zip atac rna)) k = Raise (KeyError k).
Proof.
  rewrite <- fst_zip_take, <- py_dict_lookup_None. unfold dict_get.
  by intros ->.
Qed.

(** X10: a lookup raises [KeyError] exactly for the barcodes that are not
    among the first [len(rna)] entries of the first list: the lines of a
    longer first list beyond the second list have no entry. *)
Theorem dict_missing_key (atac rna : list pyval) k :
  dict_get (py_dict (zip atac rna)) k = Raise (KeyError k)
  ↔ k ∉ take (length rna) atac.
Proof.
  rewrite <- fst_zip_take, <- py_dict_lookup_None. unfold dict_get.
  destruct (py_dict (zip atac rna) !! k); split; congruence.
Qed.

Lemma res_map_dict_get_raise d l e :
  res_map (dict_get d) l = Raise e → ∃ k, k ∈ l ∧ e = KeyError k.
Proof.
  induction l as [|x l IH]; simpl; [done|].
  unfold dict_get at 1. destruct (d !! x) as [v|]; simpl.
  - destruct (res_map (dict_get d) l); simpl; [done|].
    intros [= <-]. destruct IH as (k & Hk & ->); [done|].
    exists k. split; [by right|done].
  - intros [= <-]. exists x. split; [by left|done].
Qed.

Lemma res_map_dict_get_values d l tr t :
  res_map (dict_get d) l = Ok tr → t ∈ tr → ∃ k, k ∈ l ∧ d !! k = Some t.
Proof.
  rewrite res_map_Ok. intros HF Ht.
  apply list_elem_of_lookup in Ht as [i Hi].
  destruct (Forall2_lookup_r _ _ _ _ _ HF Hi) as (k & Hk & Hkt).
  exists k. split; [by eapply list_elem_of_lookup_2|].
  unfold dict_get in Hkt. by destruct (d !! k); simplify_eq.
Qed.

(** ** Overlap and index lists *)

(** What a successful comprehension over [ov.index] returns. *)
Lemma res_map_index_Ok ov l idx :
  res_map (list_index ov) l = Ok idx →
  length idx = length l
  ∧ ∀ j b, l !! j = Some b →
      ∃ i, idx !! j = Some i ∧ ov !! i = Some b.
Proof.
  intros H. split; [by eapply res_map_length|].
  apply res_map_Ok in H. intros j b Hj.
  destruct (Forall2_lookup_l _ _ _ _ _ H Hj) as (i & Hi & Hib).
  exists i. split; [done|]. by apply list_index_Ok in Hib as [? _].
Qed.

Lemma index_list_permutes ov l idx :
  NoDup ov → NoDup l → (∀ b, b ∈ ov → b ∈ l) →
  res_map (list_index ov) l = Ok idx →
  length ov = length l ∧ idx ≡ₚ seq 0 (length l).
Proof.
  intros Hov Hl Hsub Hidx.
  assert (∀ b, b ∈ l → b ∈ ov) as Hsup
    by (apply res_map_index_is_Ok; eauto).
  assert (length ov = length l) as Hlen.
  { apply Permutation_length, NoDup_Permutation; [done..|].
    intros b. split; auto. }
  split; [done|].
  destruct (res_map_index_Ok _ _ _ Hidx) as [Hlidx Hpoint].
  apply submseteq_length_Permutation; [|by rewrite length_seq, Hlidx].
  apply NoDup_submseteq.
  - apply NoDup_alt. intros j1 j2 i H1 H2.
    destruct (lookup_lt_is_Some_2 l j1) as [b1 Hb1];
      [rewrite <- Hlidx; by eapply lookup_lt_Some|].
    destruct (lookup_lt_is_Some_2 l j2) as [b2 Hb2];
      [rewrite <- Hlidx; by eapply lookup_lt_Some|].
    destruct (Hpoint _ _ Hb1) as (i1 & Hi1 & Hov1).
    destruct (Hpoint _ _ Hb2) as (i2 & Hi2 & Hov2).
    assert (b1 = b2) by congruence. subst b2.
    by eapply NoDup_lookup.
  - intros i Hi. apply list_elem_of_lookup in Hi as [j Hj].
    destruct (lookup_lt_is_Some_2 l j) as [b Hb];
      [rewrite <- Hlidx; by eapply lookup_lt_Some|].
    destruct (Hpoint _ _ Hb) as (i' & Hi' & Hov').
    assert (i' = i) by congruence. subst i'.
    apply elem_of_seq. apply lookup_lt_Some in Hov'. lia.
Qed.

Section Indexing.

Context {num : Type} (E : env num).

(** [list(s)] enumerates every member of [s] once, in some order. *)
Hypothesis set_iter_elements : ∀ X, set_iter E X ≡ₚ elements X.

Lemma translate_and_overlap_spec (d : gmap pyval pyval)
    (observed other translated overlapped : list pyval) :
  translate_and_overlap E d observed other = Ok (translated, overlapped) →
  length translated = length observed
  ∧ (∀ j o, observed !! j = Some o →
       ∃ t, d !! o = Some t ∧ translated !! j = Some t)
  ∧ NoDup overlapped
  ∧ ∀ b, b ∈ overlapped ↔ b ∈ other ∧ ∃ o, o ∈ observed ∧ d !! o = Some b.
Proof.
  intros [Htr ->]%translate_and_overlap_Ok.
  split_and!.
  - by eapply res_map_length.
  - intros j o Hj. apply res_map_Ok in Htr.
    destruct (Forall2_lookup_l _ _ _ _ _ Htr Hj) as (t & Ht & Hot).
    exists t. split; [|done]. unfold dict_get in Hot.
    by destruct (d !! o); simplify_eq.
  - by apply NoDup_overlap.
  - intros b. rewrite elem_of_overlap by done. split.
    + intros [Hb Hother]. split; [done|].
      by eapply res_map_dict_get_values.
    + intros [Hother (o & Ho & Hob)]. split; [|done].
      apply list_elem_of_lookup in Ho as [j Hj]. apply res_map_Ok in Htr.
      destruct (Forall2_lookup_l _ _ _ _ _ Htr Hj) as (t & Ht & Hot).
      unfold dict_get in Hot. rewrite Hob in Hot. simplify_eq.
      by eapply list_elem_of_lookup_2.
Qed.

(** X11: the first two statements of either branch, when the translation
    goes through: one translated barcode per observed barcode, in order,
    each the dict entry of its barcode; and an overlapping list without
    repetitions whose members are exactly the barcodes of the other matrix
    that are the translation of some observed barcode. *)
Theorem overlap_members (d : gmap pyval pyval)
    (observed other translated overlapped : list pyval) :
  translate_and_overlap E d observed other = Ok (translated, overlapped) →
  length translated = length observed
  ∧ (∀ j o, observed !! j = Some o →
       ∃ t, d !! o = Some t ∧ translated !! j = Some t)
  ∧ NoDup overlapped
  ∧ ∀ b, b ∈ overlapped ↔ b ∈ other ∧ ∃ o, o ∈ observed ∧ d !! o = Some b.
Proof. apply translate_and_overlap_spec. Qed.

(** X12: in the default direction, when the index computation completes,
    each index list has one entry per observed barcode of its matrix (not
    one per overlapping barcode), and entry [j] is a position in the
    overlapping list: the one that holds the [j]-th RNA barcode, or the
    translation of the [j]-th ATAC barcode. *)
Theorem default_indices_point_into_overlap (d : gmap pyval pyval)
    (atac_bcs rna_bcs : list pyval) (ix : indexed) :
  index_atac_to_rna E d atac_bcs rna_bcs = Ok ix →
  length (atac_barcode_idx ix) = length atac_bcs
  ∧ length (rna_barcode_idx ix) = length rna_bcs
  ∧ (∀ j b, rna_bcs !! j = Some b →
       ∃ i, rna_barcode_idx ix !! j = Some i
            ∧ barcode_overlapped ix !! i = Some b)
  ∧ (∀ j b, atac_bcs !! j = Some b →
       ∃ i t, atac_barcode_idx ix !! j = Some i
              ∧ d !! b = Some t
              ∧ barcode_overlapped ix !! i = Some t).
Proof.
  unfold index_atac_to_rna.
  destruct (translate_and_overlap E d atac_bcs rna_bcs)
    as [[tr ov]|] eqn:Hto; [|done]. simpl.
  destruct (translate_and_overlap_spec _ _ _ _ _ Hto) as (Hlen & Htr & _ & _).
  destruct (res_map (list_index ov) tr) as [ai|] eqn:Hai; [|done]. simpl.
  destruct (res_map (list_index ov) rna_bcs) as [ri|] eqn:Hri; [|done].
  intros [= <-]. simpl.
  destruct (res_map_index_Ok _ _ _ Hai) as [Hla Hpa].
  destruct (res_map_index_Ok _ _ _ Hri) as [Hlr Hpr].
  split_and!; [congruence | done | done |].
  intros j b Hj. destruct (Htr _ _ Hj) as (t & Hbt & Ht).
  destruct (Hpa _ _ Ht) as (i & Hi & Hov). eauto.
Qed.

(** X13: in the default direction, when the index computation completes
    and no RNA barcode is observed twice, the overlapping list is as long
    as the list of RNA barcodes and the RNA index list is a rearrangement of
    [0, ..., n-1]: indexing with it drops nothing. *)
Theorem default_rna_indices_permute (d : gmap pyval pyval)
    (atac_bcs rna_bcs : list pyval) (ix : indexed) :
  index_atac_to_rna E d atac_bcs rna_bcs = Ok ix →
  NoDup rna_bcs →
  length (barcode_overlapped ix) = length rna_bcs
  ∧ rna_barcode_idx ix ≡ₚ seq 0 (length rna_bcs).
Proof.
  unfold index_atac_to_rna.
  destruct (translate_and_overlap E d atac_bcs rna_bcs)
    as [[tr ov]|] eqn:Hto; [|done]. simpl.
  destruct (translate_and_overlap_spec _ _ _ _ _ Hto) as (_ & _ & Hnd & Hmem).
  destruct (res_map (list_index ov) tr) as [ai|] eqn:Hai; [|done]. simpl.
  destruct (res_map (list_index ov) rna_bcs) as [ri|] eqn:Hri; [|done].
  intros [= <-] Hrna. simpl.
  apply (index_list_permutes ov); [done..| |done].
  intros b Hb. by apply Hmem in Hb as [? _].
Qed.

(** X14: with the rna-to-atac flag, when the index computation completes,
    the overlapping list holds exactly the observed ATAC barcodes, and the
    ATAC index list has one entry per observed ATAC barcode, the position of
    that barcode in the overlapping list. *)
Theorem flag_overlap_is_atac_barcodes (d : gmap pyval pyval)
    (rna_bcs atac_bcs : list pyval) (ix : indexed) :
  index_rna_to_atac E d rna_bcs atac_bcs = Ok ix →
  (∀ b, b ∈ barcode_overlapped ix ↔ b ∈ atac_bcs)
  ∧ length (atac_barcode_idx ix) = length atac_bcs
  ∧ ∀ j b, atac_bcs !! j = Some b →
      ∃ i, atac_barcode_idx ix !! j = Some i
           ∧ barcode_overlapped ix !! i = Some b.
Proof.
  unfold index_rna_to_atac.
  destruct (translate_and_overlap E d rna_bcs atac_bcs)
    as [[tr ov]|] eqn:Hto; [|done]. simpl.
  destruct (translate_and_overlap_spec _ _ _ _ _ Hto) as (_ & _ & Hnd & Hmem).
  destruct (res_map (list_index ov) ov) as [ri|] eqn:Hri; [|done]. simpl.
  destruct (res_map (list_index ov) atac_bcs) as [ai|] eqn:Hai; [|done].
  intros [= <-]. simpl.
  destruct (res_map_index_Ok _ _ _ Hai) as [Hla Hpa].
  split_and!; [|done|done].
  intros b. split.
  - intros Hb. by apply Hmem in Hb as [? _].
  - apply res_map_index_is_Ok. eauto.
Qed.

End Indexing.

(** ** Filtering, stacking and the writer calls *)


Section Stacking.

Context {num : Type} (E : env num).










End Stacking.

Section BytesBarcodes.

Context {num : Type} (E : env num).

(** [list(s)] enumerates every member of [s] once, in some order. *)
Hypothesis set_iter_elements : ∀ X, set_iter E X ≡ₚ elements X.

(** X19: barcodes that stay [bytes] never meet a library of [str]
    barcodes (the h5 branch decodes the RNA barcodes only).  When the first
    observed ATAC barcode is a [bytes] value and every entry of the ATAC
    library list is a [str], the default direction stops with [KeyError] on
    that barcode, and the rna-to-atac direction stops too, with [KeyError]
    or with the [ValueError] of looking that barcode up in an overlapping
    list that cannot hold it. *)
Theorem bytes_barcodes_never_match (a : args) (ld : loaded num)
    (atac rna : list pyval) (b : list byte) (rest : list pyval) :
  reaches_indexing E a ld atac rna →
  atac_barcodes ld = PBytes b :: rest →
  Forall (λ v, is_str v = true) atac →
  ∃ e, barcodemap E a = ([Makedirs (directory a)], Raise e)
       ∧ if rna_to_atac a
         then e = NotInList (PBytes b) ∨ ∃ k, e = KeyError k
         else e = KeyError (PBytes b).
Proof.
  intros Hreach Hbc Hstr. unfold barcodemap.
  rewrite (barcodemap_body_indexing _ _ _ _ _ Hreach).
  assert (PBytes b ∉ atac) as Hnotin.
  { intros Hin. rewrite Forall_forall in Hstr. by apply Hstr in Hin. }
  destruct (rna_to_atac a).
  - rewrite index_barcodes_flag. unfold index_rna_to_atac.
    destruct (translate_and_overlap E _ _ _) as [[tr ov]|] eqn:Hto.
    + apply translate_and_overlap_Ok in Hto as [Htr ->]. simpl.
      rewrite list_index_NoDup_seq by (by apply NoDup_overlap). simpl.
      rewrite Hbc. simpl.
      rewrite list_index_not_elem; [simpl; eauto|].
      rewrite elem_of_overlap by done. intros [Hin _].
      destruct (res_map_dict_get_values _ _ _ _ Htr Hin) as (k & _ & Hk).
      apply py_dict_lookup_Some, elem_of_zip_r in Hk. done.
    + unfold translate_and_overlap in Hto.
      destruct (res_map (dict_get _) (rna_barcodes ld)) as [tr|] eqn:Htr;
        [done|]. simpl in Hto. injection Hto as <-.
      destruct (res_map_dict_get_raise _ _ _ Htr) as (k & _ & ->).
      simpl. eauto.
  - rewrite index_barcodes_default. unfold index_atac_to_rna,
      translate_and_overlap. rewrite Hbc. simpl.
    assert (dict_get (py_dict (zip atac rna)) (PBytes b)
            = Raise (KeyError (PBytes b))) as ->.
    { apply dict_missing_key_take. intros Hin.
      by apply elem_of_take in Hin as (? & ?%list_elem_of_lookup_2 & _). }
    simpl. eauto.
Qed.

End BytesBarcodes.

(** ** The UTF-8 codec and the peak names of the h5 branch *)

Section Utf8.

Local Open Scope N_scope.

Ltac bool_props :=
  unfold is_cont, in_range, is_surrogate in *;
  repeat match goal with
  | H : _ && _ = true |- _ => apply andb_true_iff in H as [? ?]
  | H : _ && _ = false |- _ => apply andb_false_iff in H as [?|?]
  | H : (_ <=? _) = true |- _ => apply N.leb_le in H
  | H : (_ <=? _) = false |- _ => apply N.leb_gt in H
  | H : (_ <? _) = true |- _ => apply N.ltb_lt in H
  | H : (_ <? _) = false |- _ => apply N.ltb_ge in H
  | H : (_ =? _) = true |- _ => apply N.eqb_eq in H
  | H : (_ =? _) = false |- _ => apply N.eqb_neq in H
  end.

Lemma utf8_decode_eq b :
  utf8_decode b =
  match b with
  | [] => Some []
  | b1 :: r1 =>
      let n1 := Byte.to_N b1 in
      if n1 <? 0x80 then cons n1 <$> utf8_decode r1
      else match r1 with
      | [] => None
      | b2 :: r2 =>
          let n2 := Byte.to_N b2 in
          if in_range 0xC2 0xDF n1 then
            if is_cont n2
            then cons ((n1 - 0xC0) * 64 + (n2 - 0x80)) <$> utf8_decode r2
            else None
          else match r2 with
          | [] => None
          | b3 :: r3 =>
              let n3 := Byte.to_N b3 in
              if in_range 0xE0 0xEF n1 then
                if in_range (if n1 =? 0xE0 then 0xA0 else 0x80)
                            (if n1 =? 0xED then 0x9F else 0xBF) n2
                   && is_cont n3
                then cons ((n1 - 0xE0) * 4096 + (n2 - 0x80) * 64 + (n3 - 0x80))
                       <$> utf8_decode r3
                else None
              else match r3 with
              | [] => None
              | b4 :: r4 =>
                  let n4 := Byte.to_N b4 in
                  if in_range 0xF0 0xF4 n1
                     && in_range (if n1 =? 0xF0 then 0x90 else 0x80)
                                 (if n1 =? 0xF4 then 0x8F else 0xBF) n2
                     && is_cont n3 && is_cont n4
                  then cons ((n1 - 0xF0) * 262144 + (n2 - 0x80) * 4096
                             + (n3 - 0x80) * 64 + (n4 - 0x80))
                         <$> utf8_decode r4
                  else None
              end
          end
      end
  end.
Proof. by destruct b. Qed.

Ltac valid_goal :=
  unfold valid_cp; split;
  [ bool_props; lia
  | match goal with
    | |- is_surrogate ?c = false =>
        destruct (is_surrogate c) eqn:?; [exfalso; bool_props; lia | reflexivity]
    end ].

Lemma utf8_decode_valid_aux n : ∀ b s, (length b ≤ n)%nat → utf8_decode b = Some s → Forall valid_cp s.
Proof.
  induction n as [|n IH]; intros b s Hlen.
  - destruct b; [|simpl in Hlen; lia]. intros [= <-]. constructor.
  - rewrite utf8_decode_eq. destruct b as [|b1 r1]; [intros [= <-]; constructor|].
    cbv zeta. simpl in Hlen.
    destruct (Byte.to_N b1 <? 128) eqn:E1.
    { intros (s' & Hs' & ->)%fmap_Some. constructor; [valid_goal|].
      eapply IH; [|done]. lia. }
    destruct r1 as [|b2 r2]; [done|]. simpl in Hlen.
    destruct (in_range 194 223 (Byte.to_N b1)) eqn:E2.
    { destruct (is_cont (Byte.to_N b2)) eqn:E3; [|done].
      intros (s' & Hs' & ->)%fmap_Some. constructor; [valid_goal|].
      eapply IH; [|done]. lia. }
    destruct r2 as [|b3 r3]; [done|]. simpl in Hlen.
    destruct (in_range 224 239 (Byte.to_N b1)) eqn:E3.
    { destruct (_ && _) eqn:E4; [|done].
      intros (s' & Hs' & ->)%fmap_Some. constructor.
      - destruct (Byte.to_N b1 =? 224) eqn:E5; destruct (Byte.to_N b1 =? 237) eqn:E6;
          valid_goal.
      - eapply IH; [|done]. lia. }
    destruct r3 as [|b4 r4]; [done|]. simpl in Hlen.
    destruct (_ && _) eqn:E4; [|done].
    intros (s' & Hs' & ->)%fmap_Some. constructor.
    + destruct (Byte.to_N b1 =? 240) eqn:E5; destruct (Byte.to_N b1 =? 244) eqn:E6;
        valid_goal.
    + eapply IH; [|done]. lia.
Qed.

Ltac Zify.zify_post_hook ::= Z.to_euclidean_division_equations.

Ltac range_true :=
  unfold is_cont, in_range;
  repeat (apply andb_true_iff; split); apply N.leb_le; bool_props; lia.

Lemma byte_n_spec n : n < 256 → ∃ x, byte_n n = [x] ∧ Byte.to_N x = n.
Proof.
  intros Hn. unfold byte_n. destruct (Byte.of_N n) as [x|] eqn:Hx.
  - exists x. split; [done|]. by apply Byte.to_of_N.
  - apply Byte.of_N_None_iff in Hx. lia.
Qed.

Lemma utf8_encode_char_valid c : valid_cp c → is_Some (utf8_encode_char c).
Proof.
  intros [Hc Hs]. unfold utf8_encode_char. rewrite Hs.
  repeat case_match; try done; bool_props; lia.
Qed.

Lemma utf8_decode_encode_char c bc rest :
  utf8_encode_char c = Some bc →
  utf8_decode (bc ++ rest) = cons c <$> utf8_decode rest.
Proof.
  unfold utf8_encode_char.
  destruct (c <? 128) eqn:E1.
  { intros [= <-]. bool_props.
    destruct (byte_n_spec c) as (x & -> & Hx); [lia|].
    simpl app. rewrite utf8_decode_eq. cbv zeta. rewrite Hx.
    by rewrite (proj2 (N.ltb_lt _ _) E1). }
  destruct (c <? 2048) eqn:E2.
  { intros [= <-]. bool_props.
    destruct (byte_n_spec (192 + c / 64)) as (x1 & -> & Hx1); [lia|].
    destruct (byte_n_spec (128 + c mod 64)) as (x2 & -> & Hx2); [lia|].
    simpl app. rewrite utf8_decode_eq. cbv zeta. rewrite Hx1, Hx2.
    rewrite (proj2 (N.ltb_ge _ _)) by lia.
    assert (in_range 194 223 (192 + c / 64) = true) as ->.
    { unfold in_range. rewrite andb_true_iff, !N.leb_le. lia. }
    assert (is_cont (128 + c mod 64) = true) as ->.
    { unfold is_cont, in_range. rewrite andb_true_iff, !N.leb_le. lia. }
    f_equal. f_equal. lia. }
  destruct (c <? 65536) eqn:E3.
  { destruct (is_surrogate c) eqn:E4; [done|]. intros [= <-].
    destruct (byte_n_spec (224 + c / 4096)) as (x1 & -> & Hx1); [bool_props; lia|].
    destruct (byte_n_spec (128 + (c / 64) mod 64)) as (x2 & -> & Hx2); [lia|].
    destruct (byte_n_spec (128 + c mod 64)) as (x3 & -> & Hx3); [lia|].
    simpl app. rewrite utf8_decode_eq. cbv zeta. rewrite Hx1, Hx2, Hx3.
    rewrite (proj2 (N.ltb_ge _ _)) by lia.
    assert (in_range 194 223 (224 + c / 4096) = false) as ->.
    { unfold in_range. apply andb_false_iff. right. apply N.leb_gt. lia. }
    assert (in_range 224 239 (224 + c / 4096) = true) as ->.
    { unfold in_range. apply andb_true_iff. split; apply N.leb_le; bool_props; lia. }
    assert (in_range (if 224 + c / 4096 =? 224 then 160 else 128)
              (if 224 + c / 4096 =? 237 then 159 else 191)
              (128 + (c / 64) mod 64) && is_cont (128 + c mod 64) = true) as ->.
    { destruct (224 + c / 4096 =? 224) eqn:E5; destruct (224 + c / 4096 =? 237) eqn:E6;
        range_true. }
    f_equal. f_equal. bool_props; lia. }
  destruct (c <? 1114112) eqn:E4; [|done]. intros [= <-].
  destruct (byte_n_spec (240 + c / 262144)) as (x1 & -> & Hx1); [bool_props; lia|].
  destruct (byte_n_spec (128 + (c / 4096) mod 64)) as (x2 & -> & Hx2); [lia|].
  destruct (byte_n_spec (128 + (c / 64) mod 64)) as (x3 & -> & Hx3); [lia|].
  destruct (byte_n_spec (128 + c mod 64)) as (x4 & -> & Hx4); [lia|].
  simpl app. rewrite utf8_decode_eq. cbv zeta. rewrite Hx1, Hx2, Hx3, Hx4.
  rewrite (proj2 (N.ltb_ge _ _)) by lia.
  assert (in_range 194 223 (240 + c / 262144) = false) as ->.
  { unfold in_range. apply andb_false_iff. right. apply N.leb_gt. lia. }
  assert (in_range 224 239 (240 + c / 262144) = false) as ->.
  { unfold in_range. apply andb_false_iff. right. apply N.leb_gt. lia. }
  match goal with |- (if ?b then _ else _) = _ => assert (b = true) as -> end.
  { destruct (240 + c / 262144 =? 240) eqn:E5; destruct (240 + c / 262144 =? 244) eqn:E6;
      range_true. }
  f_equal. f_equal. bool_props; lia.
Qed.

Lemma utf8_decode_valid b s : utf8_decode b = Some s → Forall valid_cp s.
Proof. by apply (utf8_decode_valid_aux (length b)). Qed.

Lemma utf8_encode_valid s : Forall valid_cp s → is_Some (utf8_encode s).
Proof.
  induction 1 as [|c s Hc _ [bs IH]]; simpl; [done|].
  destruct (utf8_encode_char_valid c Hc) as [bc ->]. rewrite IH. done.
Qed.

Lemma utf8_decode_encode (s : list N) (b : list byte) :
  utf8_encode s = Some b → utf8_decode b = Some s.
Proof.
  revert b. induction s as [|c s IH]; intros b; simpl.
  - by intros [= <-].
  - destruct (utf8_encode_char c) as [bc|] eqn:Hc; [|done].
    destruct (utf8_encode s) as [bs|]; [|done]. intros [= <-].
    rewrite (utf8_decode_encode_char _ _ _ Hc), (IH bs); done.
Qed.

(** X20: [str.encode()] followed by [bytes.decode()] gives the string
    back: whenever a string of code points can be encoded, its encoding is
    valid UTF-8 and decodes to the same code points. *)
Theorem utf8_round_trip (s : list N) (b : list byte) :
  utf8_encode s = Some b → utf8_decode b = Some s.
Proof. apply utf8_decode_encode. Qed.

Lemma utf8_decode_ascii b :
  Forall (λ x, Byte.to_N x < 0x80) b → utf8_decode b = Some (Byte.to_N <$> b).
Proof.
  induction 1 as [|x b Hx _ IH]; [done|].
  rewrite utf8_decode_eq. cbv zeta.
  rewrite (proj2 (N.ltb_lt _ _) Hx), IH. done.
Qed.

Lemma utf8_encode_ascii b :
  Forall (λ x, Byte.to_N x < 0x80) b → utf8_encode (Byte.to_N <$> b) = Some b.
Proof.
  induction 1 as [|x b Hx _ IH]; [done|].
  rewrite fmap_cons. cbn [utf8_encode].
  unfold utf8_encode_char. rewrite (proj2 (N.ltb_lt _ _) Hx), IH.
  unfold byte_n. by rewrite Byte.of_to_N.
Qed.

End Utf8.

Lemma res_map_Raise {A B} (f : A → res B) l e :
  res_map f l = Raise e → ∃ x, x ∈ l ∧ f x = Raise e.
Proof.
  induction l as [|x l IH]; simpl; [done|].
  destruct (f x) as [y|e'] eqn:Hx; simpl.
  - destruct (res_map f l); simpl; [done|]. intros [= <-].
    destruct IH as (x' & Hx' & He); [done|]. exists x'. split; [by right|done].
  - intros [= <-]. exists x. split; [by left|done].
Qed.

Section PeakNames.

Context {num : Type} (E : env num).

Local Open Scope N_scope.

(** [re.sub("\W", "_", s)] on the code points of a [str]. *)
Local Abbreviation sub_W := (fmap (λ c, if is_word E c then c else 0x5F)).

(** The first comprehension of the h5 branch, on one name. *)
Local Abbreviation decode_sub :=
  (λ feature, res_bind (py_decode feature) (λ s, re_sub_W E s)).

Lemma sub_W_valid s : Forall valid_cp s → Forall valid_cp (sub_W s).
Proof.
  intros H. apply Forall_fmap. eapply Forall_impl; [exact H|].
  intros c Hc. simpl. destruct (is_word E c); [done|]. by split.
Qed.

Lemma sub_W_words s : Forall (λ c, is_word E c = true) (sub_W s).
Proof.
  apply Forall_fmap, Forall_forall. intros c _. simpl.
  by destruct (is_word E c) eqn:Hc.
Qed.

Lemma sub_W_id s : Forall (λ c, is_word E c = true) s → sub_W s = s.
Proof. induction 1 as [|c s Hc _ IH]; csimpl; [done|]. by rewrite Hc, IH. Qed.

Lemma decode_sub_Ok name v :
  decode_sub name = Ok v
  ↔ ∃ b s, name = PBytes b ∧ utf8_decode b = Some s ∧ v = PStr (sub_W s).
Proof.
  destruct name as [s0|b]; simpl.
  - split; [done|]. by intros (? & ? & [=] & _).
  - destruct (utf8_decode b) as [s|] eqn:Hs; simpl.
    + split; [intros [= <-]; eauto|].
      intros (? & ? & [= <-] & Hs' & ->). congruence.
    + split; [done|]. intros (? & ? & [= <-] & Hs' & _). congruence.
Qed.

Lemma decode_sub_Raise name e :
  decode_sub name = Raise e → e = AttributeError ∨ e = UnicodeDecodeError.
Proof.
  destruct name as [s0|b]; simpl; [intros [= <-]; by left|].
  destruct (utf8_decode b); simpl; [done|]. intros [= <-]. by right.
Qed.

Lemma encode_sub_W b s :
  utf8_decode b = Some s → ∃ b', py_encode (PStr (sub_W s)) = Ok (PBytes b').
Proof.
  intros Hs. destruct (utf8_encode_valid (sub_W s)) as [b' Hb'].
  { by eapply sub_W_valid, utf8_decode_valid. }
  exists b'. simpl. by rewrite Hb'.
Qed.

(** X21: the rewriting of the peak names succeeds exactly when every name
    is a [bytes] value that holds valid UTF-8; otherwise it stops with
    [AttributeError] (a name that is a [str]) or [UnicodeDecodeError], and
    never with an encoding error: what the substitution produces can always
    be encoded again. *)
Theorem normalize_succeeds_iff (names : list pyval) :
  ((∃ fs, normalize_peak_names E names = Ok fs)
     ↔ Forall (λ name, ∃ b s, name = PBytes b ∧ utf8_decode b = Some s) names)
  ∧ ∀ e, normalize_peak_names E names = Raise e →
         e = AttributeError ∨ e = UnicodeDecodeError.
Proof.
  unfold normalize_peak_names.
  assert (∀ ss, res_map decode_sub names = Ok ss →
                ∃ fs, res_map py_encode ss = Ok fs) as Hsecond.
  { intros ss Hss. apply res_map_is_Ok. intros v Hv.
    apply res_map_Ok in Hss. apply list_elem_of_lookup in Hv as [i Hi].
    destruct (Forall2_lookup_r _ _ _ _ _ Hss Hi) as (name & _ & Hname).
    apply decode_sub_Ok in Hname as (b & s & _ & Hs & ->).
    destruct (encode_sub_W b s Hs) as [b' Hb']. eauto. }
  split; [split|].
  - intros [fs Hfs].
    destruct (res_map decode_sub names) as [ss|] eqn:Hss; [|done].
    apply res_map_Ok in Hss. apply Forall_forall. intros name Hname.
    apply list_elem_of_lookup in Hname as [i Hi].
    destruct (Forall2_lookup_l _ _ _ _ _ Hss Hi) as (v & _ & Hv).
    apply decode_sub_Ok in Hv as (b & s & -> & Hs & _). eauto.
  - intros Hnames.
    destruct (proj2 (res_map_is_Ok decode_sub names)) as [ss Hss].
    { intros name Hname. rewrite Forall_forall in Hnames.
      destruct (Hnames _ Hname) as (b & s & -> & Hs).
      exists (PStr (sub_W s)). apply decode_sub_Ok. eauto. }
    rewrite Hss. simpl. by apply Hsecond.
  - intros e.
    destruct (res_map decode_sub names) as [ss|e'] eqn:Hss; simpl.
    + destruct (Hsecond ss eq_refl) as [fs ->]. done.
    + intros [= <-]. apply res_map_Raise in Hss as (name & _ & Hname).
      by eapply decode_sub_Raise.
Qed.

(** X22: the row identifiers that the h5 branch produces are as many as
    the names read, each decodes to a string of word characters only, and
    rewriting them once more changes nothing. *)
Theorem normalize_output_words (names fs : list pyval) :
  normalize_peak_names E names = Ok fs →
  length fs = length names
  ∧ Forall (λ f, ∃ b s, f = PBytes b ∧ utf8_decode b = Some s
                        ∧ Forall (λ c, is_word E c = true) s) fs
  ∧ normalize_peak_names E fs = Ok fs.
Proof.
  unfold normalize_peak_names.
  destruct (res_map decode_sub names) as [ss|] eqn:Hss; [|done]. simpl.
  intros Hfs.
  assert (∀ i f, fs !! i = Some f →
            ∃ b s, f = PBytes b ∧ utf8_decode b = Some (sub_W s)
                   ∧ ss !! i = Some (PStr (sub_W s))) as Hpoint.
  { intros i f Hi. apply res_map_Ok in Hss, Hfs.
    destruct (Forall2_lookup_r _ _ _ _ _ Hfs Hi) as (v & Hv & Hvf).
    destruct (Forall2_lookup_r _ _ _ _ _ Hss Hv) as (name & _ & Hname).
    apply decode_sub_Ok in Hname as (b & s & _ & _ & ->).
    simpl in Hvf. destruct (utf8_encode (sub_W s)) as [b'|] eqn:Hb'; [|done].
    injection Hvf as <-. exists b', s. split_and!; [done| |done].
    by apply utf8_decode_encode. }
  split_and!.
  - rewrite (res_map_length _ _ _ Hfs). by eapply res_map_length.
  - apply Forall_forall. intros f Hf.
    apply list_elem_of_lookup in Hf as [i Hi].
    destruct (Hpoint _ _ Hi) as (b & s & -> & Hb & _).
    exists b, (sub_W s). split_and!; [done..|]. apply sub_W_words.
  - assert (res_map decode_sub fs = Ok ss) as ->; [|done].
    apply res_map_Ok, Forall2_same_length_lookup_2.
    + by apply res_map_length in Hfs.
    + intros i f v Hi Hv. destruct (Hpoint _ _ Hi) as (b & s & -> & Hb & Hv').
      apply decode_sub_Ok. exists b, (sub_W s). split_and!; [done..|].
      rewrite sub_W_id by apply sub_W_words. congruence.
Qed.

(** X23: on names made of ASCII bytes the rewriting works byte by byte,
    whatever the Unicode tables say: every byte that is not a letter, a
    digit or an underscore becomes an underscore, the others stay, and the
    length of each name is kept. *)
Theorem normalize_ascii_names (bs : list (list byte)) :
  Forall (Forall (λ x, Byte.to_N x < 0x80)) bs →
  normalize_peak_names E (PBytes <$> bs) = Ok (PBytes <$> (ascii_sub_W <$> bs))
  ∧ Forall2 (λ b b', length b' = length b) bs (ascii_sub_W <$> bs).
Proof.
  intros Hbs. split.
  - unfold normalize_peak_names.
    assert (res_map decode_sub (PBytes <$> bs)
            = Ok ((λ b, PStr (Byte.to_N <$> ascii_sub_W b)) <$> bs)) as ->.
    { apply res_map_Ok, Forall2_fmap, Forall_Forall2_diag.
      eapply Forall_impl; [exact Hbs|]. intros b Hb.
      apply decode_sub_Ok. exists b, (Byte.to_N <$> b).
      split_and!; [done | by apply utf8_decode_ascii |]. f_equal.
      unfold ascii_sub_W. rewrite <- !list_fmap_compose.
      apply Forall_fmap_ext. eapply Forall_impl; [exact Hb|].
      intros x Hx. simpl. unfold is_word.
      rewrite (proj2 (N.ltb_lt _ _) Hx).
      by destruct (is_ascii_word (Byte.to_N x)). }
    simpl. rewrite <- (list_fmap_compose ascii_sub_W PBytes).
    apply res_map_Ok, Forall2_fmap, Forall_Forall2_diag.
    eapply Forall_impl; [exact Hbs|]. intros b Hb. simpl.
    rewrite utf8_encode_ascii; [done|].
    unfold ascii_sub_W. apply Forall_fmap.
    eapply Forall_impl; [exact Hb|]. intros x Hx. simpl.
    destruct (is_ascii_word (Byte.to_N x)); [done|]. by compute.
  - apply Forall2_fmap_r, Forall_Forall2_diag, Forall_forall.
    intros b _. apply length_fmap.
Qed.

End PeakNames.

(** * The further properties on the concrete surroundings *)

Lemma plain_needs_separator_witness :
  fileformat (demo_args_fmt (str "plain") false) = str "plain"
  ∧ g_separator (G demo_env_ok) = None
  ∧ barcodemap demo_env_ok (demo_args_fmt (str "plain") false)
    = ([Makedirs (str "out")], Raise (NameError "separator")).
Proof.
  split_and!; [reflexivity | reflexivity |].
  exact (plain_needs_separator demo_env_ok
           (demo_args_fmt (str "plain") false) eq_refl eq_refl).
Defined.

Lemma plain_needs_numpy_witness :
  g_separator (G demo_env_plain) = Some (bc "tab")
  ∧ read_count demo_env_plain (str "peak.txt") (bc "tab") = Ok demo_peak2
  ∧ read_count demo_env_plain (str "gene.txt") (bc "tab") = Ok demo_gene2
  ∧ g_numpy (G demo_env_plain) = false
  ∧ barcodemap demo_env_plain (demo_args_fmt (str "plain") false)
    = ([Makedirs (str "out")], Raise (NameError "numpy")).
Proof.
  split_and!; [reflexivity..|].
  exact (plain_needs_numpy demo_env_plain
           (demo_args_fmt (str "plain") false) (bc "tab") demo_peak2
           [bs "chr1_10_20"; bs "chr1_30_40"; bs "chr2_5_9"] demo_gene2
           eq_refl eq_refl eq_refl eq_refl eq_refl eq_refl).
Defined.


Lemma h5_empty_gene_lists_witness :
  read_10X_h5 demo_env_h5_empty (str "gene.h5")
    = Ok {| h5_matrix := {| ncols := 1; rows := [] |};
            names := []; h5_barcodes := [bs "R1"] |}
  ∧ load demo_env_h5_empty demo_args_h5 = Raise IndexError.
Proof.
  split; [reflexivity|].
  exact (h5_empty_gene_lists demo_env_h5_empty demo_args_h5
           {| h5_matrix := {| ncols := 1; rows := [[4]]%Z |};
              names := [bs "chr10:100020591-100020841"];
              h5_barcodes := [bs "A1"] |}
           [bs "chr10_100020591_100020841"]
           {| h5_matrix := {| ncols := 1; rows := [] |};
              names := []; h5_barcodes := [bs "R1"] |}
           eq_refl eq_refl eq_refl eq_refl (or_introl eq_refl)).
Defined.

Lemma atac_features_are_bytes_witness :
  load demo_env_ok (demo_args false)
    = Ok (Some (demo_loaded_mtx demo_peak2 demo_gene2))
  ∧ Forall (λ v, is_bytes v = true)
      (atac_features (demo_loaded_mtx demo_peak2 demo_gene2)).
Proof.
  assert (load demo_env_ok (demo_args false)
          = Ok (Some (demo_loaded_mtx demo_peak2 demo_gene2))) as H
    by (vm_compute; reflexivity).
  split; [exact H|].
  exact (atac_features_are_bytes demo_env_ok (demo_args false) _ H).
Defined.

Lemma barcode_lib_lines_witness :
  universal_open demo_env_ok (str "atac_lib.txt") "rt"
    = Ok (lines_of [bc "A1"; bc "A2"])
  ∧ ∃ l, read_barcode_lib demo_env_ok (str "atac_lib.txt") = Ok l
         ∧ length l = length (lines_of [bc "A1"; bc "A2"]).
Proof.
  assert (universal_open demo_env_ok (str "atac_lib.txt") "rt"
          = Ok (lines_of [bc "A1"; bc "A2"])) as H by reflexivity.
  split; [exact H|].
  destruct (barcode_lib_lines demo_env_ok _ _ H) as (l & Hl & Hlen & _).
  exists l. split; [exact Hl | exact Hlen].
Defined.

Lemma library_contents_unused_witness :
  (∃ l, universal_open demo_env_ok (str "atac_lib.txt") "rt" = Ok l)
  ∧ barcodemap
      (with_universal_open demo_env_ok (universal_open demo_env_ok))
      (demo_args false)
    = barcodemap
        (with_universal_open demo_env_ok (λ _ _, Ok [str "TTTT"]))
        (demo_args false).
Proof.
  split; [eexists; reflexivity|].
  exact (library_contents_unused demo_env_ok (demo_args false)
           (universal_open demo_env_ok) (λ _ _, Ok [str "TTTT"])
           (ex_intro _ _ eq_refl) (ex_intro _ _ eq_refl)
           (ex_intro _ _ eq_refl) (ex_intro _ _ eq_refl)).
Defined.

Lemma dict_last_pair_wins_witness :
  [bc "A1"; bc "A2"; bc "A1"] !! 2 = Some (bc "A1")
  ∧ [bc "R1"; bc "R2"; bc "R9"] !! 2 = Some (bc "R9")
  ∧ dict_get (py_dict (zip [bc "A1"; bc "A2"; bc "A1"]
                           [bc "R1"; bc "R2"; bc "R9"])) (bc "A1")
    = Ok (bc "R9").
Proof.
  split_and!; [reflexivity | reflexivity |].
  refine (dict_last_pair_wins [bc "A1"; bc "A2"; bc "A1"]
            [bc "R1"; bc "R2"; bc "R9"] 2 (bc "A1") (bc "R9")
            eq_refl eq_refl _).
  intros j Hj Hlen. simpl in Hlen. lia.
Defined.

Lemma dict_is_positional_witness :
  NoDup [bc "A1"; bc "A2"]
  ∧ dict_get (py_dict (zip [bc "A1"; bc "A2"] [bc "R1"; bc "R2"])) (bc "A2")
    = Ok (bc "R2").
Proof.
  assert (NoDup [bc "A1"; bc "A2"]) as H
    by (apply (bool_decide_unpack _); vm_compute; exact I).
  split; [exact H|].
  exact (dict_is_positional [bc "A1"; bc "A2"] [bc "R1"; bc "R2"] 1
           (bc "A2") (bc "R2") H eq_refl eq_refl).
Defined.

Lemma overlap_members_witness :
  translate_and_overlap demo_env_r9
    (py_dict (zip [bc "A1"; bc "A2"; bc "A3"] [bc "R1"; bc "R2"; bc "R9"]))
    [bc "A1"; bc "A2"; bc "A3"] [bc "R1"; bc "R2"]
  = Ok ([bc "R1"; bc "R2"; bc "R9"], [bc "R2"; bc "R1"])
  ∧ NoDup [bc "R2"; bc "R1"].
Proof.
  assert (translate_and_overlap demo_env_r9
    (py_dict (zip [bc "A1"; bc "A2"; bc "A3"] [bc "R1"; bc "R2"; bc "R9"]))
    [bc "A1"; bc "A2"; bc "A3"] [bc "R1"; bc "R2"]
  = Ok ([bc "R1"; bc "R2"; bc "R9"], [bc "R2"; bc "R1"])) as H
    by (vm_compute; reflexivity).
  split; [exact H|].
  exact (proj1 (proj2 (proj2 (overlap_members demo_env_r9
                                (demo_set_iter _ _ _ _ _) _ _ _ _ _ H)))).
Defined.

Lemma default_indices_point_into_overlap_witness :
  index_atac_to_rna demo_env_ok
    (py_dict (zip [bc "A1"; bc "A2"] [bc "R1"; bc "R2"]))
    [bc "A1"; bc "A2"] [bc "R1"; bc "R2"]
  = Ok {| barcode_overlapped := [bc "R2"; bc "R1"];
          rna_barcode_idx := [1; 0]; atac_barcode_idx := [1; 0] |}
  ∧ length [1; 0] = length [bc "A1"; bc "A2"].
Proof.
  assert (index_atac_to_rna demo_env_ok
    (py_dict (zip [bc "A1"; bc "A2"] [bc "R1"; bc "R2"]))
    [bc "A1"; bc "A2"] [bc "R1"; bc "R2"]
  = Ok {| barcode_overlapped := [bc "R2"; bc "R1"];
          rna_barcode_idx := [1; 0]; atac_barcode_idx := [1; 0] |}) as H
    by (vm_compute; reflexivity).
  split; [exact H|].
  exact (proj1 (default_indices_point_into_overlap demo_env_ok
                  (demo_set_iter _ _ _ _ _) _ _ _ _ H)).
Defined.

Lemma default_rna_indices_permute_witness :
  index_atac_to_rna demo_env_ok
    (py_dict (zip [bc "A1"; bc "A2"] [bc "R1"; bc "R2"]))
    [bc "A1"; bc "A2"] [bc "R1"; bc "R2"]
  = Ok {| barcode_overlapped := [bc "R2"; bc "R1"];
          rna_barcode_idx := [1; 0]; atac_barcode_idx := [1; 0] |}
  ∧ NoDup [bc "R1"; bc "R2"]
  ∧ [1; 0] ≡ₚ seq 0 (length [bc "R1"; bc "R2"]).
Proof.
  assert (index_atac_to_rna demo_env_ok
    (py_dict (zip [bc "A1"; bc "A2"] [bc "R1"; bc "R2"]))
    [bc "A1"; bc "A2"] [bc "R1"; bc "R2"]
  = Ok {| barcode_overlapped := [bc "R2"; bc "R1"];
          rna_barcode_idx := [1; 0]; atac_barcode_idx := [1; 0] |}) as H
    by (vm_compute; reflexivity).
  assert (NoDup [bc "R1"; bc "R2"]) as Hnd
    by (apply (bool_decide_unpack _); vm_compute; exact I).
  split_and!; [exact H | exact Hnd |].
  exact (proj2 (default_rna_indices_permute demo_env_ok
                  (demo_set_iter _ _ _ _ _) _ _ _ _ H Hnd)).
Defined.

Lemma flag_overlap_is_atac_barcodes_witness :
  index_rna_to_atac demo_env_flag
    (py_dict (zip [bc "R1"; bc "R2"; bc "R9"] [bc "A1"; bc "A2"; bc "A3"]))
    [bc "R9"; bc "R2"; bc "R1"] [bc "A1"; bc "A2"]
  = Ok {| barcode_overlapped := [bc "A2"; bc "A1"];
          rna_barcode_idx := [0; 1]; atac_barcode_idx := [1; 0] |}
  ∧ ∀ b, b ∈ [bc "A2"; bc "A1"] ↔ b ∈ [bc "A1"; bc "A2"].
Proof.
  assert (index_rna_to_atac demo_env_flag
    (py_dict (zip [bc "R1"; bc "R2"; bc "R9"] [bc "A1"; bc "A2"; bc "A3"]))
    [bc "R9"; bc "R2"; bc "R1"] [bc "A1"; bc "A2"]
  = Ok {| barcode_overlapped := [bc "A2"; bc "A1"];
          rna_barcode_idx := [0; 1]; atac_barcode_idx := [1; 0] |}) as H
    by (vm_compute; reflexivity).
  split; [exact H|].
  exact (proj1 (flag_overlap_is_atac_barcodes demo_env_flag
                  (demo_set_iter _ _ _ _ _) _ _ _ _ H)).
Defined.




Lemma bytes_barcodes_never_match_witness :
  reaches_indexing demo_env_h5_bound demo_args_h5 demo_loaded_h5
    [bc "A1"] [bc "R1"]
  ∧ atac_barcodes demo_loaded_h5 = [bs "A1"]
  ∧ Forall (λ v, is_str v = true) [bc "A1"]
  ∧ ∃ e, barcodemap demo_env_h5_bound demo_args_h5
         = ([Makedirs (str "out")], Raise e)
         ∧ e = KeyError (bs "A1").
Proof.
  assert (reaches_indexing demo_env_h5_bound demo_args_h5 demo_loaded_h5
            [bc "A1"] [bc "R1"]) as Hreach.
  { split_and!; [vm_compute; reflexivity | eexists; reflexivity
                 | eexists; reflexivity | reflexivity | reflexivity]. }
  assert (Forall (λ v, is_str v = true) [bc "A1"]) as Hstr
    by (constructor; [reflexivity | constructor]).
  split_and!; [exact Hreach | reflexivity | exact Hstr |].
  exact (bytes_barcodes_never_match demo_env_h5_bound
           (λ X, Permutation_refl _) demo_args_h5 demo_loaded_h5
           [bc "A1"] [bc "R1"] (String.list_byte_of_string "A1") []
           Hreach eq_refl Hstr).
Defined.

Lemma utf8_round_trip_witness :
  utf8_encode [0x20AC%N; 0x41%N; 0xE9%N; 0x1F600%N]
    = Some [xe2; x82; xac; x41; xc3; xa9; xf0; x9f; x98; x80]
  ∧ utf8_decode [xe2; x82; xac; x41; xc3; xa9; xf0; x9f; x98; x80]
    = Some [0x20AC%N; 0x41%N; 0xE9%N; 0x1F600%N].
Proof.
  split; [reflexivity|].
  exact (utf8_round_trip [0x20AC%N; 0x41%N; 0xE9%N; 0x1F600%N]
           [xe2; x82; xac; x41; xc3; xa9; xf0; x9f; x98; x80] eq_refl).
Defined.

Lemma normalize_output_words_witness :
  normalize_peak_names demo_env_h5 [bs "chr10:100020591-100020841"]
    = Ok [bs "chr10_100020591_100020841"]
  ∧ normalize_peak_names demo_env_h5 [bs "chr10_100020591_100020841"]
    = Ok [bs "chr10_100020591_100020841"].
Proof.
  assert (normalize_peak_names demo_env_h5 [bs "chr10:100020591-100020841"]
          = Ok [bs "chr10_100020591_100020841"]) as H
    by (vm_compute; reflexivity).
  split; [exact H|].
  exact (proj2 (proj2 (normalize_output_words demo_env_h5 _ _ H))).
Defined.

Lemma normalize_ascii_names_witness :
  Forall (Forall (λ x, (Byte.to_N x < 0x80)%N))
    [String.list_byte_of_string "chr1:5-9"]
  ∧ normalize_peak_names demo_env_h5 [bs "chr1:5-9"] = Ok [bs "chr1_5_9"].
Proof.
  assert (Forall (Forall (λ x, (Byte.to_N x < 0x80)%N))
            [String.list_byte_of_string "chr1:5-9"]) as H.
  { constructor; [|constructor].
    repeat (constructor; [reflexivity|]). constructor. }
  split; [exact H|].
  exact (proj1 (normalize_ascii_names demo_env_h5 _ H)).
Defined.
